(** * process_improve.multivariate: PCA limits and the MCUV scaler

    A shallow embedding of [src/process_improve/multivariate.py]:
    the [PCA] subclass of scikit-learn's estimator ([fit], [T2_limit],
    [SPE_limit], [ellipse_coordinates]) and the [MCUVScaler] transformer
    ([fit], [transform], [inverse_transform]).

    Modelling conventions.
    - A float64 is modelled twice.  In [float] it is a real number, one
      of the two infinities, or NaN; arithmetic on finite values is
      exact real arithmetic (rounding, overflow and the sign of zero
      are left out) and the special values follow IEEE 754.  This
      model carries the statements about control flow, attributes,
      exceptions, shared objects and the formulas of the limits.  In
      [IEEE] the scaler is embedded over the binary64 values of the
      Standard Library's [SpecFloat], with IEEE 754 rounding, overflow
      and signed zeros; the statements that depend on how float64
      rounds and overflows are made there.
    - A Python [int] is a [Z].
    - A raised exception is the [Err] branch of [result].
    - A pandas DataFrame and a 2-D numpy array are a [matrix]: a column
      count and the rows; a pandas Series and a 1-D array are a
      [list float].  Column labels are positional (the default
      RangeIndex).
    - The data given to [fit] and [transform] are pandas DataFrames, as
      in the repository's tests; what scikit-learn returns are numpy
      arrays.  So the SPE values are a pandas Series (its reductions
      skip missing entries, its variance has ddof = 1) and the T2
      values a numpy array.
    - Objects are records whose attributes set by [fit] are optional:
      [None] means the attribute does not exist on the instance.
    - scipy's distribution functions, scikit-learn's own PCA fit and,
      in [IEEE], the order in which numpy sums a column are parameters
      of the development. *)

From Stdlib Require Import Reals Lra Lia ZArith SpecFloat.
From stdpp Require Import base option list gmap strings.

(** ** Python exceptions and results *)

Inductive exn : Set :=
  | AssertionError
  | NotFittedError
  | ZeroDivisionError
  | NameError (name : string)
  | AttributeError (name : string)
  | TypeError
  | ValueError.

Inductive result (A : Type) : Type :=
  | Ok (a : A)
  | Err (e : exn).
Arguments Ok {A} a.
Arguments Err {A} e.

#[global] Instance result_ret : MRet result := fun A a => Ok a.
#[global] Instance result_bind : MBind result := fun A B f m =>
  match m with
  | Ok a => f a
  | Err e => Err e
  end.

(** [assert c]. *)
Definition py_assert (c : bool) : result unit :=
  if c then Ok tt else Err AssertionError.

(** Reading attribute [name] of an instance: [AttributeError] when the
    attribute was never assigned. *)
Definition getattr {A : Type} (name : string) (field : option A) : result A :=
  match field with
  | Some a => Ok a
  | None => Err (AttributeError name)
  end.

(** [sklearn.utils.validation.check_is_fitted(estimator, name)]: raises
    [NotFittedError] unless the instance has the named attribute. *)
Definition check_is_fitted {A : Type} (field : option A) : result unit :=
  match field with
  | Some _ => Ok tt
  | None => Err NotFittedError
  end.

(** The exceptions raised by the explicit checks of this module: the
    [assert] statements and [check_is_fitted]. *)
Definition raised_by_check (e : exn) : bool :=
  match e with
  | AssertionError | NotFittedError => true
  | _ => false
  end.

(** ** float64 values *)

Inductive float : Type :=
  | Fin (r : R)
  | PInf
  | NInf
  | NaN.

Module F64.

Open Scope R_scope.

Definition Rsign (x : R) : comparison :=
  match total_order_T x 0 with
  | inleft (left _) => Lt
  | inleft (right _) => Eq
  | inright _ => Gt
  end.

Definition Reqb (x y : R) : bool := if Req_dec_T x y then true else false.
Definition Rltb (x y : R) : bool := if Rlt_dec x y then true else false.

Definition is_nan (x : float) : bool :=
  match x with NaN => true | _ => false end.

Definition is_finite (x : float) : bool :=
  match x with Fin _ => true | _ => false end.

Definition opp (x : float) : float :=
  match x with
  | Fin a => Fin (- a)
  | PInf => NInf
  | NInf => PInf
  | NaN => NaN
  end.

Definition add (x y : float) : float :=
  match x, y with
  | NaN, _ | _, NaN => NaN
  | Fin a, Fin b => Fin (a + b)
  | PInf, NInf | NInf, PInf => NaN
  | PInf, _ | _, PInf => PInf
  | NInf, _ | _, NInf => NInf
  end.

Definition sub (x y : float) : float := add x (opp y).

(** The infinity with the sign of [s], NaN when [s] is [Eq]. *)
Definition signed_inf (s : comparison) : float :=
  match s with Lt => NInf | Eq => NaN | Gt => PInf end.

Definition sign_of (x : float) : comparison :=
  match x with
  | Fin a => Rsign a
  | PInf => Gt
  | NInf => Lt
  | NaN => Eq
  end.

Definition sign_mul (s t : comparison) : comparison :=
  match s, t with
  | Eq, _ | _, Eq => Eq
  | Lt, Lt | Gt, Gt => Gt
  | Lt, Gt | Gt, Lt => Lt
  end.

Definition mul (x y : float) : float :=
  match x, y with
  | NaN, _ | _, NaN => NaN
  | Fin a, Fin b => Fin (a * b)
  | _, _ => signed_inf (sign_mul (sign_of x) (sign_of y))
  end.

(** Division; a zero divisor is the positive zero. *)
Definition div (x y : float) : float :=
  match x, y with
  | NaN, _ | _, NaN => NaN
  | Fin a, Fin b =>
      if Reqb b 0 then signed_inf (Rsign a) else Fin (a / b)
  | Fin _, _ => Fin 0
  | _, Fin b =>
      if Reqb b 0 then x else signed_inf (sign_mul (sign_of x) (Rsign b))
  | _, _ => NaN
  end.

(** [x ** 2]. *)
Definition sqr (x : float) : float := mul x x.

Definition sqrt (x : float) : float :=
  match x with
  | Fin a => if Rltb a 0 then NaN else Fin (sqrt a)
  | PInf => PInf
  | NInf | NaN => NaN
  end.

Definition cos (x : float) : float :=
  match x with Fin a => Fin (cos a) | _ => NaN end.

Definition sin (x : float) : float :=
  match x with Fin a => Fin (sin a) | _ => NaN end.

(** [x == y]. *)
Definition eqb (x y : float) : bool :=
  match x, y with
  | Fin a, Fin b => Reqb a b
  | PInf, PInf | NInf, NInf => true
  | _, _ => false
  end.

(** [x < y]. *)
Definition ltb (x y : float) : bool :=
  match x, y with
  | NaN, _ | _, NaN => false
  | Fin a, Fin b => Rltb a b
  | NInf, Fin _ | NInf, PInf | Fin _, PInf => true
  | _, _ => false
  end.

(** [x <= y]. *)
Definition leb (x y : float) : bool := ltb x y || eqb x y.

Definition of_Z (z : Z) : float := Fin (IZR z).
Definition of_nat (n : nat) : float := Fin (INR n).

(** Sum of a sequence, left to right from 0.0. *)
Definition sum (l : list float) : float := foldl add (Fin 0) l.

(** Python's [a / b] on two ints: the quotient as a float, or
    [ZeroDivisionError]. *)
Definition int_truediv (a b : Z) : result float :=
  if (b =? 0)%Z then Err ZeroDivisionError else Ok (Fin (IZR a / IZR b)).

(** Python's [x / n] for a float [x] and an int [n]. *)
Definition float_div_int (x : float) (n : Z) : result float :=
  if (n =? 0)%Z then Err ZeroDivisionError else Ok (div x (of_Z n)).

End F64.

(** ** Series, DataFrames and arrays *)

(** A 1-D array or a pandas Series. *)
Abbreviation series := (list float).

(** A 2-D array or a pandas DataFrame of shape [(length rows, ncols)]. *)
Record matrix : Type := Mat {
  ncols : nat;
  rows : list (list float);
}.

Module Frame.

Definition nrows (M : matrix) : nat := length (rows M).

(** The representation invariant: every row has [ncols] entries. *)
Definition wf (M : matrix) : Prop :=
  Forall (fun r => length r = ncols M) (rows M).

(** Entry [(i, j)]. *)
Definition cell (M : matrix) (i j : nat) : option float :=
  rows M !! i ≫= (.!! j).

(** Column [j] as a Series. *)
Definition col (j : nat) (M : matrix) : series :=
  map (fun r => nth j r NaN) (rows M).

Definition map_cells (f : float -> float) (M : matrix) : matrix :=
  Mat (ncols M) (map (map f) (rows M)).

(** [M.copy()]. *)
Definition copy (M : matrix) : matrix := Mat (ncols M) (rows M).

(** *** pandas reductions (missing entries are skipped) *)

Definition dropna (s : series) : series :=
  List.filter (fun x => negb (F64.is_nan x)) s.

(** [Series.mean()]. *)
Definition mean (s : series) : float :=
  let v := dropna s in
  F64.div (F64.sum v) (F64.of_nat (length v)).

(** [Series.var(ddof)]: NaN unless more than [ddof] entries are
    observed. *)
Definition var (ddof : nat) (s : series) : float :=
  let v := dropna s in
  if length v <=? ddof then NaN
  else
    let avg := F64.div (F64.sum v) (F64.of_nat (length v)) in
    F64.div (F64.sum (map (fun x => F64.sqr (F64.sub avg x)) v))
            (F64.of_nat (length v - ddof)).

(** [Series.std(ddof)]. *)
Definition std (ddof : nat) (s : series) : float := F64.sqrt (var ddof s).

Fixpoint insert_sorted (x : float) (l : series) : series :=
  match l with
  | [] => [x]
  | y :: l' => if F64.leb x y then x :: l else y :: insert_sorted x l'
  end.

Definition sort_values (s : series) : series := foldr insert_sorted [] s.

(** [Series.median()]. *)
Definition median (s : series) : float :=
  let v := sort_values (dropna s) in
  let n := length v in
  if n =? 0 then NaN
  else if Nat.even n
    then F64.div (F64.add (nth (n / 2 - 1) v NaN) (nth (n / 2) v NaN)) (Fin 2)
    else nth (n / 2) v NaN.

(** [DataFrame.mean()], [DataFrame.std(ddof)]: one value per column. *)
Definition col_reduce (f : series -> float) (M : matrix) : series :=
  map (fun j => f (col j M)) (seq 0 (ncols M)).

(** [DataFrame.sum(axis=1)]: one value per row, missing entries
    skipped. *)
Definition row_sums (M : matrix) : series :=
  map (fun r => F64.sum (dropna r)) (rows M).

(** *** DataFrame (op) Series

    The Series is aligned on the column labels; a label present on
    one side only gives a column of NaN. *)
Fixpoint align (op : float -> float -> float) (r s : series) : series :=
  match r, s with
  | x :: r', y :: s' => op x y :: align op r' s'
  | [], _ => map (fun _ => NaN) s
  | _, [] => map (fun _ => NaN) r
  end.

Definition frame_op (op : float -> float -> float) (M : matrix) (s : series)
  : matrix :=
  Mat (Nat.max (ncols M) (length s)) (map (fun r => align op r s) (rows M)).

(** *** numpy arithmetic *)

(** Elementwise operation of two rows under numpy broadcasting. *)
Definition np_row_op (op : float -> float -> float) (r s : series)
  : result series :=
  if length r =? length s then Ok (zip_with op r s)
  else match r, s with
       | _, [y] => Ok (map (fun x => op x y) r)
       | [x], _ => Ok (map (fun y => op x y) s)
       | _, _ => Err ValueError
       end.

(** [M (op) s] for a 2-D array [M] and a 1-D array [s]. *)
Definition np_op_1d (op : float -> float -> float) (M : matrix) (s : series)
  : result matrix :=
  if (ncols M =? length s) || (length s =? 1) || (ncols M =? 1) then
    rs ← mapM (fun r => np_row_op op r s) (rows M);
    Ok (Mat (Nat.max (ncols M) (length s)) rs)
  else Err ValueError.

(** [X - M] for a DataFrame [X] and a 2-D array [M]: the shapes are
    equal, or [M] is a single column or a single row that pandas
    broadcasts; any other shape is rejected. *)
Definition frame_sub_array (X M : matrix) : result matrix :=
  if (nrows X =? nrows M) && (ncols X =? ncols M) then
    Ok (Mat (ncols X) (zip_with (zip_with F64.sub) (rows X) (rows M)))
  else if (nrows X =? nrows M) && (ncols M =? 1) then
    Ok (Mat (ncols X)
          (zip_with (fun r m => map (fun x => F64.sub x (nth 0 m NaN)) r)
                    (rows X) (rows M)))
  else if (ncols X =? ncols M) && (nrows M =? 1) then
    Ok (Mat (ncols X)
          (map (fun r => zip_with F64.sub r (nth 0 (rows M) [])) (rows X)))
  else Err ValueError.

Definition dot (u v : series) : float :=
  F64.sum (zip_with F64.mul u v).

(** [T @ C]. *)
Definition matmul (T C : matrix) : result matrix :=
  if ncols T =? nrows C then
    Ok (Mat (ncols C)
          (map (fun t => map (fun j => dot t (col j C)) (seq 0 (ncols C)))
               (rows T)))
  else Err ValueError.

(** [np.sum(M, axis=1)] on an array. *)
Definition np_row_sums (M : matrix) : series := map F64.sum (rows M).

(** Every entry is a finite number. *)
Definition all_finite (M : matrix) : bool :=
  forallb (forallb F64.is_finite) (rows M).

End Frame.

(** ** MCUVScaler: mean centering and scaling to unit variance *)

Module MCUVScaler.

Record t : Type := Scaler {
  center_x_ : option series;
  scale_x_ : option series;
}.

(** [MCUVScaler()]: [__init__] assigns nothing. *)
Definition init : t := Scaler None None.

Definition set_center_x_ (self : t) (v : series) : t :=
  Scaler (Some v) (scale_x_ self).

Definition set_scale_x_ (self : t) (v : series) : t :=
  Scaler (center_x_ self) (Some v).

(** [s[s == 0] = 1.0]. *)
Definition mask_zero (s : series) : series :=
  map (fun v => if F64.eqb v (Fin 0) then Fin 1 else v) s.

Definition fit (self : t) (X : matrix) : t :=
  let self := set_center_x_ self (Frame.col_reduce Frame.mean X) in
  let self := set_scale_x_ self (Frame.col_reduce (Frame.std 1) X) in
  let self :=
    match scale_x_ self with
    | Some s => set_scale_x_ self (mask_zero s)
    | None => self
    end in
  self.

Definition transform (self : t) (X : matrix) : result matrix :=
  _ ← check_is_fitted (center_x_ self);
  _ ← check_is_fitted (scale_x_ self);
  let X := Frame.copy X in
  c ← getattr "center_x_" (center_x_ self);
  s ← getattr "scale_x_" (scale_x_ self);
  Ok (Frame.frame_op F64.div (Frame.frame_op F64.sub X c) s).

Definition inverse_transform (self : t) (X : matrix) : result matrix :=
  _ ← check_is_fitted (center_x_ self);
  _ ← check_is_fitted (scale_x_ self);
  let X := Frame.copy X in
  s ← getattr "scale_x_" (scale_x_ self);
  c ← getattr "center_x_" (center_x_ self);
  Ok (Frame.frame_op F64.add (Frame.frame_op F64.mul X s) c).

End MCUVScaler.

(** ** The scaler on a heap of shared objects

    The same three methods with Python's reference semantics: frames,
    series and the scaler instance live in a store and are passed by
    address, so that aliasing and in-place updates are visible. *)

Module Ref.

Definition loc : Type := positive.

Inductive obj : Type :=
  | OFrame (M : matrix)
  | OSeries (s : series)
  | OScaler (center_x_ scale_x_ : option loc).

Abbreviation heap := (gmap loc obj).

(** A computation that may raise and may update the heap. *)
Definition comp (A : Type) : Type := heap -> result A * heap.

#[global] Instance comp_ret : MRet comp := fun A a h => (Ok a, h).
#[global] Instance comp_bind : MBind comp := fun A B f m h =>
  match m h with
  | (Ok a, h') => f a h'
  | (Err e, h') => (Err e, h')
  end.

Definition lift {A : Type} (r : result A) : comp A := fun h => (r, h).

(** Allocation of a new object at an unused address. *)
Definition new (o : obj) : comp loc := fun h =>
  let l := fresh (dom h) in (Ok l, <[l := o]> h).

Definition frame_at (l : loc) : comp matrix := fun h =>
  match h !! l with
  | Some (OFrame M) => (Ok M, h)
  | _ => (Err TypeError, h)
  end.

Definition series_at (l : loc) : comp series := fun h =>
  match h !! l with
  | Some (OSeries s) => (Ok s, h)
  | _ => (Err TypeError, h)
  end.

Definition scaler_at (l : loc) : comp (option loc * option loc) := fun h =>
  match h !! l with
  | Some (OScaler c s) => (Ok (c, s), h)
  | _ => (Err TypeError, h)
  end.

(** In-place update of the object at [l]. *)
Definition store (l : loc) (o : obj) : comp unit := fun h =>
  (Ok tt, <[l := o]> h).

(** [self.center_x_] and [self.scale_x_] as stored on the instance. *)
Definition center_of (self : loc) : comp (option loc) :=
  '(c, _) ← scaler_at self; mret c.

Definition scale_of (self : loc) : comp (option loc) :=
  '(_, s) ← scaler_at self; mret s.

(** [MCUVScaler()]. *)
Definition init : comp loc := new (OScaler None None).

Definition fit (self x : loc) : comp loc :=
  X ← frame_at x;
  c ← new (OSeries (Frame.col_reduce Frame.mean X));
  s0 ← scale_of self;
  _ ← store self (OScaler (Some c) s0);
  s ← new (OSeries (Frame.col_reduce (Frame.std 1) X));
  c0 ← center_of self;
  _ ← store self (OScaler c0 (Some s));
  s1 ← scale_of self;
  sl ← lift (getattr "scale_x_" s1);
  v ← series_at sl;
  _ ← store sl (OSeries (MCUVScaler.mask_zero v));
  mret self.

Definition transform (self x : loc) : comp loc :=
  c0 ← center_of self;
  _ ← lift (check_is_fitted c0);
  s0 ← scale_of self;
  _ ← lift (check_is_fitted s0);
  X ← frame_at x;
  x ← new (OFrame (Frame.copy X));
  X ← frame_at x;
  c1 ← center_of self;
  cl ← lift (getattr "center_x_" c1);
  c ← series_at cl;
  d ← new (OFrame (Frame.frame_op F64.sub X c));
  D ← frame_at d;
  s1 ← scale_of self;
  sl ← lift (getattr "scale_x_" s1);
  s ← series_at sl;
  new (OFrame (Frame.frame_op F64.div D s)).

Definition inverse_transform (self x : loc) : comp loc :=
  c0 ← center_of self;
  _ ← lift (check_is_fitted c0);
  s0 ← scale_of self;
  _ ← lift (check_is_fitted s0);
  X ← frame_at x;
  x ← new (OFrame (Frame.copy X));
  X ← frame_at x;
  s1 ← scale_of self;
  sl ← lift (getattr "scale_x_" s1);
  s ← series_at sl;
  d ← new (OFrame (Frame.frame_op F64.mul X s));
  D ← frame_at d;
  c1 ← center_of self;
  cl ← lift (getattr "center_x_" c1);
  c ← series_at cl;
  new (OFrame (Frame.frame_op F64.add D c)).

(** The method calls of a client program. *)
Inductive call : Type :=
  | CallFit (x : loc)
  | CallTransform (x : loc)
  | CallInverseTransform (x : loc).

Definition is_fit (c : call) : bool :=
  match c with CallFit _ => true | _ => false end.

(** One call on the instance [self]; an exception is caught by the
    client, the heap stays as the call left it. *)
Definition run_call (self : loc) (c : call) (h : heap) : heap :=
  match c with
  | CallFit x => (fit self x h).2
  | CallTransform x => (transform self x h).2
  | CallInverseTransform x => (inverse_transform self x h).2
  end.

Definition run_calls (self : loc) (cs : list call) (h : heap) : heap :=
  foldl (fun h c => run_call self c h) h cs.

(** The computation changes no object that exists when it starts. *)
Definition preserving {A : Type} (m : comp A) : Prop :=
  forall h : heap, h ⊆ (m h).2.

(** The computation is [preserving] and, when it returns, returns the
    address of a frame that did not exist when it started. *)
Definition allocating (m : comp loc) : Prop :=
  forall h : heap,
    h ⊆ (m h).2 /\
    forall l, (m h).1 = Ok l ->
      h !! l = None /\ exists M, (m h).2 !! l = Some (OFrame M).

End Ref.

(** ** PCA: scikit-learn's estimator with monitoring statistics *)

(** The attributes that scikit-learn's own fit stores and this module
    reads. *)
Record sk_fitted : Type := SkFitted {
  sk_components_ : matrix;
  sk_explained_variance_ : series;
}.

Section PCA.

(** The constructor arguments of scikit-learn's PCA other than
    [n_components] (solver, whitening, ...). *)
Variable sk_params : Type.

(** scikit-learn's decomposition of a validated input: the fitted
    attributes and the scores of the training rows.  It is a function of
    the constructor arguments and the data. *)
Variable sk_decompose :
  option Z -> sk_params -> matrix -> result (sk_fitted * matrix).

(** [scipy.stats.f.isf(q, dfn, dfd)] and [scipy.stats.chi2.ppf(q, df)]. *)
Variable f_isf : float -> Z -> Z -> float.
Variable chi2_ppf : float -> float -> float.

Record PCA : Type := MkPCA {
  n_components : option Z;
  params : sk_params;
  components_ : option matrix;
  explained_variance_ : option series;
  N : option Z;
  scaling_factor_for_scores : option series;
  t_scores : option matrix;
  hotellings_T2 : option series;
  squared_prediction_error : option series;
}.

(** [PCA(n_components, ...)]: [__init__] stores the constructor
    arguments only. *)
Definition PCA_init (n : option Z) (p : sk_params) : PCA :=
  MkPCA n p None None None None None None None.

Definition set_sk (self : PCA) (a : sk_fitted) : PCA :=
  MkPCA (n_components self) (params self)
        (Some (sk_components_ a)) (Some (sk_explained_variance_ a))
        (N self) (scaling_factor_for_scores self) (t_scores self)
        (hotellings_T2 self) (squared_prediction_error self).

Definition set_N (self : PCA) (v : Z) : PCA :=
  MkPCA (n_components self) (params self)
        (components_ self) (explained_variance_ self)
        (Some v) (scaling_factor_for_scores self) (t_scores self)
        (hotellings_T2 self) (squared_prediction_error self).

Definition set_scaling_factor_for_scores (self : PCA) (v : series) : PCA :=
  MkPCA (n_components self) (params self)
        (components_ self) (explained_variance_ self)
        (N self) (Some v) (t_scores self)
        (hotellings_T2 self) (squared_prediction_error self).

Definition set_t_scores (self : PCA) (v : matrix) : PCA :=
  MkPCA (n_components self) (params self)
        (components_ self) (explained_variance_ self)
        (N self) (scaling_factor_for_scores self) (Some v)
        (hotellings_T2 self) (squared_prediction_error self).

Definition set_hotellings_T2 (self : PCA) (v : series) : PCA :=
  MkPCA (n_components self) (params self)
        (components_ self) (explained_variance_ self)
        (N self) (scaling_factor_for_scores self) (t_scores self)
        (Some v) (squared_prediction_error self).

Definition set_squared_prediction_error (self : PCA) (v : series) : PCA :=
  MkPCA (n_components self) (params self)
        (components_ self) (explained_variance_ self)
        (N self) (scaling_factor_for_scores self) (t_scores self)
        (hotellings_T2 self) (Some v).

(** scikit-learn's input validation: at least one row and one column,
    every entry finite. *)
Definition sk_validate (X : matrix) : result unit :=
  if (1 <=? Frame.nrows X) && (1 <=? ncols X) && Frame.all_finite X
  then Ok tt else Err ValueError.

(** [PCA_sklearn.fit(X)]. *)
Definition super_fit (self : PCA) (X : matrix) : result PCA :=
  _ ← sk_validate X;
  '(a, _) ← sk_decompose (n_components self) (params self) X;
  Ok (set_sk self a).

(** [PCA_sklearn.fit_transform(X)]: fits again and returns the scores. *)
Definition super_fit_transform (self : PCA) (X : matrix)
  : result (PCA * matrix) :=
  _ ← sk_validate X;
  '(a, T) ← sk_decompose (n_components self) (params self) X;
  Ok (set_sk self a, T).

Definition fit (self : PCA) (X : matrix) : result PCA :=
  self ← super_fit self X;
  let self := set_N self (Z.of_nat (Frame.nrows X)) in
  ev ← getattr "explained_variance_" (explained_variance_ self);
  let self := set_scaling_factor_for_scores self (map F64.sqrt ev) in
  '(self, T) ← super_fit_transform self X;
  let self := set_t_scores self T in
  T ← getattr "t_scores" (t_scores self);
  sf ← getattr "scaling_factor_for_scores" (scaling_factor_for_scores self);
  scaled ← Frame.np_op_1d F64.div T sf;
  let self :=
    set_hotellings_T2 self
      (Frame.np_row_sums (Frame.map_cells F64.sqr scaled)) in
  T ← getattr "t_scores" (t_scores self);
  C ← getattr "components_" (components_ self);
  TC ← Frame.matmul T C;
  error_X ← Frame.frame_sub_array X TC;
  let self :=
    set_squared_prediction_error self
      (Frame.row_sums (Frame.map_cells F64.sqr error_X)) in
  Ok self.

(** [n_components] is [None] unless given to the constructor; the
    product [A * (N - 1)] then raises [TypeError]. *)
Definition T2_limit (self : PCA) (conf_level : float) : result float :=
  _ ← py_assert (F64.ltb (Fin 0) conf_level);
  _ ← py_assert (F64.ltb conf_level (Fin 1));
  let A := n_components self in
  N ← getattr "N" (N self);
  match A with
  | None => Err TypeError
  | Some A =>
      q ← F64.int_truediv (A * (N - 1) * (N + 1)) (N * (N - A));
      Ok (F64.mul q (f_isf (F64.sub (Fin 1) conf_level) A (N - A)))
  end.

Definition SPE_limit (self : PCA) (conf_level : float) : result float :=
  _ ← check_is_fitted (squared_prediction_error self);
  _ ← py_assert (F64.ltb (Fin 0) conf_level);
  _ ← py_assert (F64.ltb conf_level (Fin 1));
  N ← getattr "N" (N self);
  spe ← getattr "squared_prediction_error" (squared_prediction_error self);
  let '(center_spe, variance_spe) :=
    if (7 <? N)%Z
    then (Frame.median spe, Frame.var 1 spe)
    else (Frame.mean spe, Frame.var 1 spe) in
  let g := F64.div variance_spe (F64.mul (Fin 2) center_spe) in
  let h := F64.div (F64.mul (Fin 2) (F64.sqr center_spe)) variance_spe in
  Ok (F64.mul (chi2_ppf conf_level h) g).

End PCA.

(** ** The confidence ellipse

    [ellipse_coordinates] is a plain function (it takes no [self]); the
    names in its body are resolved as Python does: the function's local
    variables, then the module's globals, else [NameError]. *)

Module Ellipse.

Inductive pyval : Type :=
  | VFloat (x : float)
  | VInt (n : Z)
  | VObject.

(** The names bound at the top level of [multivariate.py]. *)
Definition module_globals : list string :=
  ["np"; "f"; "chi2"; "t"; "PCA_sklearn"; "BaseEstimator";
   "TransformerMixin"; "check_is_fitted"; "PCA"; "MCUVScaler"]%string.

Definition load_name (locals : gmap string pyval) (name : string)
  : result pyval :=
  match locals !! name with
  | Some v => Ok v
  | None =>
      if bool_decide (name ∈ module_globals) then Ok VObject
      else Err (NameError name)
  end.

(** A number as the float operand of a numpy product. *)
Definition as_float (v : pyval) : result float :=
  match v with
  | VFloat x => Ok x
  | VInt n => Ok (F64.of_Z n)
  | VObject => Err TypeError
  end.

(** [np.linspace(start, stop, num)]. *)
Definition linspace (start stop : float) (num : Z) : result series :=
  if (num <? 0)%Z then Err ValueError
  else
    let n := Z.to_nat num in
    let delta := F64.sub stop start in
    let step := F64.div delta (F64.of_Z (num - 1)) in
    Ok (map (fun i =>
               if (1 <? n) && (i =? n - 1) then stop
               else
                 F64.add
                   (F64.mul (F64.of_nat i)
                            (if (0 <? num - 1)%Z then step else delta))
                   start)
            (seq 0 n)).

Definition ellipse_coordinates
    (score_h score_v T2_limit_alpha : float) (n_points : Z)
  : result (series * series) :=
  let locals : gmap string pyval :=
    {[ "score_h"%string := VFloat score_h;
       "score_v"%string := VFloat score_v;
       "T2_limit_alpha"%string := VFloat T2_limit_alpha;
       "n_points"%string := VInt n_points ]} in
  s_h ← load_name locals "s_h" ≫= as_float;
  let h_const := F64.mul (F64.sqrt T2_limit_alpha) s_h in
  s_v ← load_name locals "s_v" ≫= as_float;
  let v_const := F64.mul (F64.sqrt T2_limit_alpha) s_v in
  dt ← F64.float_div_int (F64.mul (Fin 2) (Fin PI)) (n_points - 1);
  steps ← linspace (Fin 0) (F64.of_Z (n_points - 1)) n_points;
  let x := map (fun s => F64.mul (F64.cos (F64.mul s dt)) h_const) steps in
  let y := map (fun s => F64.mul (F64.sin (F64.mul s dt)) v_const) steps in
  Ok (x, y).

End Ellipse.

(** ** Column statistics over the reals

    The textbook definitions the pandas reductions of [Frame] are
    compared with. *)

Module Stats.

Open Scope R_scope.

(** Sum of the reals of a list. *)
Definition Rsum (l : list R) : R := foldr Rplus 0 l.

(** Mean of a sample. *)
Definition Rmean (l : list R) : R := Rsum l / INR (length l).

(** Sample variance, delta degrees of freedom 1. *)
Definition Rvar1 (l : list R) : R :=
  Rsum (map (fun x => (x - Rmean l) * (x - Rmean l)) l) / INR (length l - 1).

(** Sample standard deviation, delta degrees of freedom 1. *)
Definition Rstd1 (l : list R) : R := sqrt (Rvar1 l).

(** The observed (non-missing) values of a column. *)
Definition observed (v : series) : list R :=
  flat_map (fun x => match x with Fin r => [r] | _ => [] end) v.

Definition is_inf (x : float) : bool :=
  match x with PInf | NInf => true | _ => false end.

(** No entry is infinite: each is a number or missing. *)
Definition no_inf (v : series) : bool := forallb (fun x => negb (is_inf x)) v.

End Stats.

(** ** The range of sums of squares *)

Module Ranges.

Open Scope R_scope.

(** A square, or a sum of squares: a non-negative number, +inf or NaN. *)
Definition nonneg_or_special (x : float) : Prop :=
  x = PInf \/ x = NaN \/ exists r, x = Fin r /\ 0 <= r.

(** The same without NaN. *)
Definition nonneg_or_inf (x : float) : Prop :=
  x = PInf \/ exists r, x = Fin r /\ 0 <= r.

End Ranges.

(** ** Concrete instances of the parameters

    A decomposition along the coordinate axes standing in for
    scikit-learn's, constant quantile functions standing in for scipy's,
    and a few small frames. *)

Module Fixture.

(** Row [i] of the K x K identity. *)
Definition unit_row (K i : nat) : series :=
  map (fun j => if j =? i then Fin 1 else Fin 0) (seq 0 K).

(** The first [a] coordinate axes as components, the first [a] columns
    as scores; as scikit-learn does, a component count outside
    0 .. min(N, K) is rejected. *)
Definition decompose (n : option Z) (p : unit) (X : matrix)
  : result (sk_fitted * matrix) :=
  let most := Nat.min (Frame.nrows X) (ncols X) in
  let a := match n with Some z => Z.to_nat z | None => most end in
  if match n with Some z => (z <? 0)%Z | None => false end || (most <? a)
  then Err ValueError
  else Ok (SkFitted (Mat (ncols X) (map (unit_row (ncols X)) (seq 0 a)))
                    (map (fun _ => Fin 1) (seq 0 a)),
           Mat a (map (take a) (rows X))).

Definition isf (q : float) (dfn dfd : Z) : float :=
  if (0 <? dfn)%Z && (0 <? dfd)%Z then Fin 3 else NaN.

Definition ppf (q df : float) : float := Fin 4.

(** An instance holding the component count [A], the observation count
    [n] and the SPE values [spe]. *)
Definition model (A n : Z) (spe : series) : PCA unit :=
  MkPCA unit (Some A) tt (Some (Mat 0 [])) (Some []) (Some n) (Some [])
        (Some (Mat 0 [])) (Some []) (Some spe).

(** Two rows, the second column without variance. *)
Definition X22 : matrix := Mat 2 [[Fin 1; Fin 5]; [Fin 3; Fin 5]].

Definition X23 : matrix :=
  Mat 3 [[Fin 1; Fin 2; Fin 3]; [Fin 4; Fin 5; Fin 6]].

(** The example of Wold, Esbensen and Geladi (1987) used by the
    repository's tests. *)
Definition wold : matrix :=
  Mat 4 [[Fin 3; Fin 4; Fin 2; Fin 2];
         [Fin 4; Fin 3; Fin 4; Fin 3];
         [Fin 5; Fin 5; Fin 6; Fin 4]].

(** Two rows, one entry of the second column missing. *)
Definition X22_missing : matrix := Mat 2 [[Fin 1; NaN]; [Fin 2; Fin 5]].

End Fixture.

(** ** The scaler in IEEE 754 binary64 arithmetic

    What the scaler stores and returns depends on the rounding and the
    overflow of float64 arithmetic, which [F64] leaves out.  The scaler
    is therefore embedded a second time, over the binary64 values of
    the Standard Library's [SpecFloat]: every operation rounds to
    nearest, ties to even, overflows to an infinity and keeps the sign
    of zero.  The statements about the values the scaler computes are
    made on this embedding. *)

Module IEEE.

Module B64.

(** binary64: 53 bits of precision, the infinities at exponent 1024. *)
Definition prec : Z := 53.
Definition emax : Z := 1024.

Definition nan : spec_float := S754_nan.
Definition zero : spec_float := S754_zero false.

Definition is_nan (x : spec_float) : bool :=
  match x with S754_nan => true | _ => false end.

Definition is_finite (x : spec_float) : bool :=
  match x with S754_zero _ | S754_finite _ _ _ => true | _ => false end.

Definition add : spec_float -> spec_float -> spec_float := SFadd prec emax.
Definition sub : spec_float -> spec_float -> spec_float := SFsub prec emax.
Definition mul : spec_float -> spec_float -> spec_float := SFmul prec emax.
Definition div : spec_float -> spec_float -> spec_float := SFdiv prec emax.
Definition sqrt : spec_float -> spec_float := SFsqrt prec emax.

(** [x ** 2] on an array is numpy's [square]: one multiplication. *)
Definition sqr (x : spec_float) : spec_float := mul x x.

(** [x == y]: false when either side is NaN, true for zeros of either
    sign. *)
Definition eqb : spec_float -> spec_float -> bool := SFeqb.

(** The float64 nearest to an integer. *)
Definition of_Z (z : Z) : spec_float := binary_normalize prec emax z 0 false.
Definition of_nat (n : nat) : spec_float := of_Z (Z.of_nat n).

(** The float64 nearest to a fraction of two integers, as a decimal
    literal denotes it. *)
Definition of_ratio (p q : Z) : spec_float := div (of_Z p) (of_Z q).

Definition one : spec_float := of_Z 1.

End B64.

(** A pandas Series of float64. *)
Abbreviation series := (list spec_float).

(** A pandas DataFrame of float64 of shape [(length rows, ncols)]. *)
Record matrix : Type := Mat {
  ncols : nat;
  rows : list (list spec_float);
}.

Module Frame.

Definition nrows (M : matrix) : nat := length (rows M).

(** The representation invariant: every row has [ncols] entries. *)
Definition wf (M : matrix) : Prop :=
  Forall (fun r => length r = ncols M) (rows M).

(** Entry [(i, j)]. *)
Definition cell (M : matrix) (i j : nat) : option spec_float :=
  rows M !! i ≫= (.!! j).

(** Column [j] as a Series. *)
Definition col (j : nat) (M : matrix) : series :=
  map (fun r => nth j r B64.nan) (rows M).

(** [M.copy()]. *)
Definition copy (M : matrix) : matrix := Mat (ncols M) (rows M).

(** Every entry is a finite number. *)
Definition all_finite (M : matrix) : bool :=
  forallb (forallb B64.is_finite) (rows M).

(** The number of observed (non-missing) entries. *)
Definition count (s : series) : nat :=
  length (List.filter (fun x => negb (B64.is_nan x)) s).

(** The values with 0 in place of the missing entries. *)
Definition fill_zero (s : series) : series :=
  map (fun x => if B64.is_nan x then B64.zero else x) s.

Section Reductions.

(** numpy's sum of the values of one column.  The order in which numpy
    adds the values (in sequence for a few values, pairwise in blocks
    for many) belongs to numpy and not to this repository; the sum is a
    parameter, and no statement below depends on the order. *)
Variable np_sum : series -> spec_float.

(** [Series.mean()], pandas' [nanmean]: the sum with the missing
    entries as 0, over the number of observed entries; NaN when none
    is observed. *)
Definition mean (s : series) : spec_float :=
  let n := count s in
  if n =? 0 then B64.nan
  else B64.div (np_sum (fill_zero s)) (B64.of_nat n).

(** [Series.var(ddof)], pandas' [nanvar]: the squared deviations from
    the mean, 0 for the missing entries, summed and divided by the
    number of observed entries less [ddof]; NaN unless more than
    [ddof] entries are observed. *)
Definition var (ddof : nat) (s : series) : spec_float :=
  let n := count s in
  if n <=? ddof then B64.nan
  else
    let avg := B64.div (np_sum (fill_zero s)) (B64.of_nat n) in
    let sqr :=
      map (fun x => if B64.is_nan x then B64.zero
                    else B64.sqr (B64.sub avg x)) s in
    B64.div (np_sum sqr) (B64.of_nat (n - ddof)).

(** [Series.std(ddof)]. *)
Definition std (ddof : nat) (s : series) : spec_float :=
  B64.sqrt (var ddof s).

End Reductions.

(** [DataFrame.mean()], [DataFrame.std(ddof)]: one value per column. *)
Definition col_reduce (f : series -> spec_float) (M : matrix) : series :=
  map (fun j => f (col j M)) (seq 0 (ncols M)).

(** DataFrame (op) Series: the Series is aligned on the column labels;
    a label present on one side only gives a column of NaN. *)
Fixpoint align (op : spec_float -> spec_float -> spec_float) (r s : series)
  : series :=
  match r, s with
  | x :: r', y :: s' => op x y :: align op r' s'
  | [], _ => map (fun _ => B64.nan) s
  | _, [] => map (fun _ => B64.nan) r
  end.

Definition frame_op (op : spec_float -> spec_float -> spec_float)
    (M : matrix) (s : series) : matrix :=
  Mat (Nat.max (ncols M) (length s)) (map (fun r => align op r s) (rows M)).

End Frame.

Module MCUVScaler.

Record t : Type := Scaler {
  center_x_ : option series;
  scale_x_ : option series;
}.

(** [MCUVScaler()]: [__init__] assigns nothing. *)
Definition init : t := Scaler None None.

Definition set_center_x_ (self : t) (v : series) : t :=
  Scaler (Some v) (scale_x_ self).

Definition set_scale_x_ (self : t) (v : series) : t :=
  Scaler (center_x_ self) (Some v).

(** [s[s == 0] = 1.0]. *)
Definition mask_zero (s : series) : series :=
  map (fun v => if B64.eqb v B64.zero then B64.one else v) s.

Definition fit (np_sum : series -> spec_float) (self : t) (X : matrix) : t :=
  let self := set_center_x_ self (Frame.col_reduce (Frame.mean np_sum) X) in
  let self := set_scale_x_ self (Frame.col_reduce (Frame.std np_sum 1) X) in
  let self :=
    match scale_x_ self with
    | Some s => set_scale_x_ self (mask_zero s)
    | None => self
    end in
  self.

Definition transform (self : t) (X : matrix) : result matrix :=
  _ ← check_is_fitted (center_x_ self);
  _ ← check_is_fitted (scale_x_ self);
  let X := Frame.copy X in
  c ← getattr "center_x_" (center_x_ self);
  s ← getattr "scale_x_" (scale_x_ self);
  Ok (Frame.frame_op B64.div (Frame.frame_op B64.sub X c) s).

Definition inverse_transform (self : t) (X : matrix) : result matrix :=
  _ ← check_is_fitted (center_x_ self);
  _ ← check_is_fitted (scale_x_ self);
  let X := Frame.copy X in
  s ← getattr "scale_x_" (scale_x_ self);
  c ← getattr "center_x_" (center_x_ self);
  Ok (Frame.frame_op B64.add (Frame.frame_op B64.mul X s) c).

End MCUVScaler.

(** Concrete sums and frames. *)
Module Fixture.

(** The values added in sequence, from 0.  On the frames below every
    order of adding gives the same sums: their columns hold two values,
    three equal values, or small integers whose sums are exact. *)
Definition sum_seq (s : series) : spec_float := foldl B64.add B64.zero s.

(** Two rows, the second column without variance. *)
Definition X22 : matrix :=
  Mat 2 [[B64.of_Z 1; B64.of_Z 5]; [B64.of_Z 3; B64.of_Z 5]].

(** Two rows, one entry of the second column missing. *)
Definition X22_missing : matrix :=
  Mat 2 [[B64.of_Z 1; B64.nan]; [B64.of_Z 2; B64.of_Z 5]].

(** One column holding 3 and 10. *)
Definition X21 : matrix := Mat 1 [[B64.of_Z 3]; [B64.of_Z 10]].

(** The float64 written 0.1. *)
Definition tenth : spec_float := B64.of_ratio 1 10.

(** One column holding 0.1 three times. *)
Definition tenths : matrix := Mat 1 [[tenth]; [tenth]; [tenth]].

(** The float64 written 1e308. *)
Definition e308 : spec_float := B64.of_Z (10 ^ 308).

(** One column holding 1e308 three times. *)
Definition huge : matrix := Mat 1 [[e308]; [e308]; [e308]].

(** The example of Wold, Esbensen and Geladi (1987) used by the
    repository's tests. *)
Definition wold : matrix :=
  Mat 4 [[B64.of_Z 3; B64.of_Z 4; B64.of_Z 2; B64.of_Z 2];
         [B64.of_Z 4; B64.of_Z 3; B64.of_Z 4; B64.of_Z 3];
         [B64.of_Z 5; B64.of_Z 5; B64.of_Z 6; B64.of_Z 4]].

End Fixture.

End IEEE.

(** * Properties *)


(** ** Facts about the float model *)

Module F64Facts.

Import Stats.
Open Scope R_scope.

Lemma Reqb_true (x y : R) : x = y -> F64.Reqb x y = true.
Proof. intros H. unfold F64.Reqb. destruct (Req_dec_T x y); congruence. Qed.

Lemma Reqb_false (x y : R) : x <> y -> F64.Reqb x y = false.
Proof. intros H. unfold F64.Reqb. destruct (Req_dec_T x y); congruence. Qed.

Lemma Rltb_true (x y : R) : x < y -> F64.Rltb x y = true.
Proof. intros H. unfold F64.Rltb. destruct (Rlt_dec x y); [reflexivity | contradiction]. Qed.

Lemma Rltb_false (x y : R) : y <= x -> F64.Rltb x y = false.
Proof. intros H. unfold F64.Rltb. destruct (Rlt_dec x y); [lra | reflexivity]. Qed.

Lemma ltb_fin (x y : R) : x < y -> F64.ltb (Fin x) (Fin y) = true.
Proof. apply Rltb_true. Qed.

Lemma sign_mul_comm (s t : comparison) : F64.sign_mul s t = F64.sign_mul t s.
Proof. destruct s, t; reflexivity. Qed.

Lemma mul_comm (x y : float) : F64.mul x y = F64.mul y x.
Proof.
  destruct x, y; simpl; try reflexivity;
    try (f_equal; apply sign_mul_comm).
  f_equal. apply Rmult_comm.
Qed.

Lemma div_fin (a b : R) : b <> 0 -> F64.div (Fin a) (Fin b) = Fin (a / b).
Proof. intros H. simpl. rewrite Reqb_false by assumption. reflexivity. Qed.

Lemma leb_fin_true (a b : R) : a <= b -> F64.leb (Fin a) (Fin b) = true.
Proof.
  intros H. unfold F64.leb. simpl. unfold F64.Rltb, F64.Reqb.
  destruct (Rlt_dec a b); [reflexivity|].
  destruct (Req_dec_T a b); [reflexivity | lra].
Qed.

Lemma leb_fin_false (a b : R) : b < a -> F64.leb (Fin a) (Fin b) = false.
Proof.
  intros H. unfold F64.leb. simpl. unfold F64.Rltb, F64.Reqb.
  destruct (Rlt_dec a b); [lra|].
  destruct (Req_dec_T a b); [lra | reflexivity].
Qed.

Lemma div_nan_r (x : float) : F64.div x NaN = NaN.
Proof. destruct x; reflexivity. Qed.

Lemma foldl_add_fin (l : list R) (a : R) :
  foldl F64.add (Fin a) (map Fin l) = Fin (a + Rsum l).
Proof.
  revert a. induction l as [|x l IH]; intros a; simpl.
  - f_equal. lra.
  - rewrite IH. f_equal. lra.
Qed.

Lemma sum_fin (l : list R) : F64.sum (map Fin l) = Fin (Rsum l).
Proof. unfold F64.sum. rewrite foldl_add_fin. f_equal. lra. Qed.

End F64Facts.

(** ** Control limits *)

Section Limits.

Variable sk_params : Type.
Variable f_isf : float -> Z -> Z -> float.
Variable chi2_ppf : float -> float -> float.

Open Scope R_scope.

(** [T2_limit] past its two assertions: the quotient of the integer
    counts, then the product with the F quantile. *)
Lemma T2_limit_eval (self : PCA sk_params) (A n : Z) (level : R) :
  n_components _ self = Some A ->
  N _ self = Some n ->
  0 < level < 1 ->
  T2_limit _ f_isf self (Fin level) =
    (q ← F64.int_truediv (A * (n - 1) * (n + 1)) (n * (n - A));
     Ok (F64.mul q (f_isf (Fin (1 - level)) A (n - A)))).
Proof.
  intros HA HN [Hlo Hhi].
  unfold T2_limit. rewrite !F64Facts.ltb_fin by assumption. simpl.
  rewrite HA, HN. reflexivity.
Qed.

(** The quotient of the counts when the divisor is not zero. *)
Lemma int_truediv_counts (A n : Z) :
  (n * (n - A))%Z <> 0%Z ->
  F64.int_truediv (A * (n - 1) * (n + 1)) (n * (n - A)) =
    Ok (Fin (IZR A * (IZR n - 1) * (IZR n + 1) / (IZR n * (IZR n - IZR A)))).
Proof.
  intros Hnz. unfold F64.int_truediv.
  destruct (Z.eqb_spec (n * (n - A)) 0) as [Hz | _]; [contradiction|].
  rewrite !mult_IZR, !minus_IZR, plus_IZR. reflexivity.
Qed.

(** C1. With component count [A >= 0], observation count [n > A] and a
    confidence level strictly between 0 and 1, [T2_limit] returns
    A(n-1)(n+1) / (n(n-A)) multiplied by the inverse survival function
    of the F distribution with (A, n-A) degrees of freedom at
    1 - level. *)
Theorem T2_limit_formula (self : PCA sk_params) (A n : Z) (level : R) :
  n_components _ self = Some A ->
  N _ self = Some n ->
  (0 <= A < n)%Z ->
  0 < level < 1 ->
  T2_limit _ f_isf self (Fin level) =
    Ok (F64.mul
          (Fin (IZR A * (IZR n - 1) * (IZR n + 1) / (IZR n * (IZR n - IZR A))))
          (f_isf (Fin (1 - level)) A (n - A))).
Proof.
  intros HA HN Hcount Hlevel.
  rewrite (T2_limit_eval self A n level) by assumption.
  rewrite int_truediv_counts by nia. reflexivity.
Qed.

(** C2. With the per-observation SPE values [spe] and a confidence level
    strictly between 0 and 1, [SPE_limit] takes as center the median of
    [spe] when [n > 7] and the mean otherwise, the variance of [spe],
    g = variance / (2 center) and h = 2 center^2 / variance, and returns
    g times the chi-squared quantile of the level with h degrees of
    freedom. *)
Theorem SPE_limit_formula (self : PCA sk_params) (n : Z) (spe : series)
    (level : R) :
  squared_prediction_error _ self = Some spe ->
  N _ self = Some n ->
  0 < level < 1 ->
  let center := if (7 <? n)%Z then Frame.median spe else Frame.mean spe in
  let variance := Frame.var 1 spe in
  let g := F64.div variance (F64.mul (Fin 2) center) in
  let h := F64.div (F64.mul (Fin 2) (F64.mul center center)) variance in
  SPE_limit _ chi2_ppf self (Fin level) =
    Ok (F64.mul g (chi2_ppf (Fin level) h)).
Proof.
  intros Hspe HN [Hlo Hhi]. cbv zeta.
  unfold SPE_limit. rewrite Hspe, HN.
  rewrite !F64Facts.ltb_fin by assumption. simpl.
  destruct (7 <? n)%Z; simpl; f_equal; apply F64Facts.mul_comm.
Qed.

(** C6 (amended). No check compares the observation count with the
    component count.  For a confidence level strictly between 0 and 1
    and [n <= A]: when [n = A] (or [n = 0]) the division by n(n-A) = 0
    raises [ZeroDivisionError]; when [0 <> n < A] the formula is
    evaluated and its value returned. *)
Theorem T2_limit_count_not_checked (self : PCA sk_params) (A n : Z)
    (level : R) :
  n_components _ self = Some A ->
  N _ self = Some n ->
  0 < level < 1 ->
  (n <= A)%Z ->
  (n = A \/ n = 0%Z ->
     T2_limit _ f_isf self (Fin level) = Err ZeroDivisionError) /\
  ((n < A)%Z -> n <> 0%Z ->
     T2_limit _ f_isf self (Fin level) =
       Ok (F64.mul
             (Fin (IZR A * (IZR n - 1) * (IZR n + 1)
                   / (IZR n * (IZR n - IZR A))))
             (f_isf (Fin (1 - level)) A (n - A)))).
Proof.
  intros HA HN Hlevel Hle.
  rewrite (T2_limit_eval self A n level) by assumption. split.
  - intros Hz. unfold F64.int_truediv.
    destruct (Z.eqb_spec (n * (n - A)) 0) as [_ | Hnz]; [reflexivity|].
    exfalso. apply Hnz. destruct Hz; subst; lia.
  - intros Hlt Hn0. rewrite int_truediv_counts by nia. reflexivity.
Qed.

End Limits.

(** ** Fitting the PCA model *)

Section Fit.

Variable sk_params : Type.
Variable sk_decompose :
  option Z -> sk_params -> matrix -> result (sk_fitted * matrix).

Local Abbreviation pca_fit := (fit sk_params sk_decompose).
Local Abbreviation pca_init := (PCA_init sk_params).

(** Case analysis on the first call whose result the goal branches on. *)
Ltac case_result :=
  match goal with
  | |- context [match ?m with Ok _ => _ | Err _ => _ end] =>
      destruct m as [?|?]; simpl
  end.

(** [fit] reads nothing of the instance but the constructor arguments. *)
Lemma fit_from_scratch (self : PCA sk_params) (X : matrix) :
  pca_fit self X = pca_fit (pca_init (n_components _ self) (params _ self)) X.
Proof.
  unfold fit, super_fit, super_fit_transform, mbind, result_bind. cbn.
  destruct (sk_validate X); cbn; [|reflexivity].
  destruct (sk_decompose (n_components _ self) (params _ self) X)
    as [[fitted T]|e] eqn:Hsk; cbn; [|reflexivity].
  rewrite !Hsk. cbn.
  repeat (case_result; [|reflexivity]). reflexivity.
Qed.

(** [fit] leaves the constructor arguments as they are. *)
Lemma fit_keeps_params (self self' : PCA sk_params) (X : matrix) :
  pca_fit self X = Ok self' ->
  n_components _ self' = n_components _ self /\
  params _ self' = params _ self.
Proof.
  unfold fit, super_fit, super_fit_transform, mbind, result_bind. cbn.
  destruct (sk_validate X); cbn; [|discriminate].
  destruct (sk_decompose (n_components _ self) (params _ self) X)
    as [[fitted T]|e] eqn:Hsk; cbn; [|discriminate].
  rewrite ?Hsk. cbn.
  repeat (case_result; [|discriminate]).
  intros [= <-]. simpl. auto.
Qed.

(** C8. A second [fit] on the same instance re-runs from scratch: the
    instance ends in the state a freshly constructed one, fit on the
    second input alone, ends in; so do in particular N,
    scaling_factor_for_scores, t_scores, hotellings_T2 and
    squared_prediction_error. *)
Theorem refit_equals_fresh_fit (n : option Z) (p : sk_params)
    (X1 X2 : matrix) (self1 self2 : PCA sk_params) :
  pca_fit (pca_init n p) X1 = Ok self1 ->
  pca_fit self1 X2 = Ok self2 ->
  pca_fit (pca_init n p) X2 = Ok self2 /\
  forall fresh, pca_fit (pca_init n p) X2 = Ok fresh ->
    N _ self2 = N _ fresh /\
    scaling_factor_for_scores _ self2 = scaling_factor_for_scores _ fresh /\
    t_scores _ self2 = t_scores _ fresh /\
    hotellings_T2 _ self2 = hotellings_T2 _ fresh /\
    squared_prediction_error _ self2 = squared_prediction_error _ fresh.
Proof.
  intros H1 H2.
  destruct (fit_keeps_params _ _ _ H1) as [Hn Hp]. simpl in Hn, Hp.
  rewrite fit_from_scratch, Hn, Hp in H2.
  split; [exact H2|].
  intros fresh Hf. rewrite H2 in Hf. injection Hf as <-. auto.
Qed.

End Fit.

(** ** The confidence ellipse *)

(** C5 (the code as it is). The body of [ellipse_coordinates] reads the
    names [s_h] and [s_v], which are bound neither by its parameters
    ([score_h], [score_v], [T2_limit_alpha], [n_points]) nor by the
    module: every call raises [NameError] at the first of them and
    returns no points. *)
Theorem ellipse_coordinates_raises (score_h score_v T2_limit_alpha : float)
    (n_points : Z) :
  Ellipse.ellipse_coordinates score_h score_v T2_limit_alpha n_points =
    Err (NameError "s_h").
Proof. reflexivity. Qed.

(** ** Calls on instances that were never fitted *)

Section NotFitted.

Variable sk_params : Type.
Variable chi2_ppf : float -> float -> float.

Lemma transform_unfitted (h : Ref.heap) (self x : Ref.loc) :
  h !! self = Some (Ref.OScaler None None) ->
  Ref.transform self x h = (Err NotFittedError, h).
Proof.
  intros H.
  unfold Ref.transform, Ref.center_of, Ref.scaler_at, mbind, Ref.comp_bind.
  rewrite H. reflexivity.
Qed.

Lemma inverse_transform_unfitted (h : Ref.heap) (self x : Ref.loc) :
  h !! self = Some (Ref.OScaler None None) ->
  Ref.inverse_transform self x h = (Err NotFittedError, h).
Proof.
  intros H.
  unfold Ref.inverse_transform, Ref.center_of, Ref.scaler_at, mbind,
    Ref.comp_bind.
  rewrite H. reflexivity.
Qed.

Lemma run_calls_unfitted (h : Ref.heap) (self : Ref.loc) (cs : list Ref.call) :
  h !! self = Some (Ref.OScaler None None) ->
  forallb (fun c => negb (Ref.is_fit c)) cs = true ->
  Ref.run_calls self cs h = h.
Proof.
  intros H. unfold Ref.run_calls.
  induction cs as [|c cs IH]; simpl; [reflexivity|].
  intros Hcs. apply andb_prop in Hcs as [Hc Hcs].
  destruct c as [x|x|x]; simpl in *; [discriminate| |].
  - rewrite transform_unfitted by exact H. apply IH, Hcs.
  - rewrite inverse_transform_unfitted by exact H. apply IH, Hcs.
Qed.

(** [MCUVScaler()] yields an instance without fitted attributes. *)
Lemma init_unfitted (h h' : Ref.heap) (self : Ref.loc) :
  Ref.init h = (Ok self, h') ->
  h !! self = None /\ h' !! self = Some (Ref.OScaler None None).
Proof.
  unfold Ref.init, Ref.new. intros [= <- <-]. split.
  - apply not_elem_of_dom, is_fresh.
  - apply lookup_insert_eq.
Qed.

(** C9. On a scaler instance on which [fit] has not been called,
    whatever other calls were made, [transform] and [inverse_transform]
    raise [NotFittedError] and leave the heap as it was (nothing is
    copied or computed); on a PCA instance on which [fit] has not been
    called, [SPE_limit] raises [NotFittedError]. *)
Theorem unfitted_calls_raise (h : Ref.heap) (self x : Ref.loc)
    (cs : list Ref.call) (X : matrix) (n : option Z) (p : sk_params)
    (level : float) :
  h !! self = Some (Ref.OScaler None None) ->
  forallb (fun c => negb (Ref.is_fit c)) cs = true ->
  let h' := Ref.run_calls self cs h in
  Ref.transform self x h' = (Err NotFittedError, h') /\
  Ref.inverse_transform self x h' = (Err NotFittedError, h') /\
  MCUVScaler.transform MCUVScaler.init X = Err NotFittedError /\
  MCUVScaler.inverse_transform MCUVScaler.init X = Err NotFittedError /\
  SPE_limit _ chi2_ppf (PCA_init sk_params n p) level = Err NotFittedError.
Proof.
  intros H Hcs h'. subst h'. rewrite run_calls_unfitted by assumption.
  repeat split.
  - apply transform_unfitted, H.
  - apply inverse_transform_unfitted, H.
Qed.

End NotFitted.

(** ** Frame properties of the scaler on the heap *)

Module RefFacts.

Import Ref.

Lemma preserving_lift {A : Type} (r : result A) : preserving (lift r).
Proof. intros h. reflexivity. Qed.

Lemma preserving_ret {A : Type} (a : A) : preserving (mret a).
Proof. intros h. reflexivity. Qed.

Lemma preserving_frame_at (l : loc) : preserving (frame_at l).
Proof. intros h. unfold frame_at. destruct (h !! l) as [[]|]; reflexivity. Qed.

Lemma preserving_series_at (l : loc) : preserving (series_at l).
Proof. intros h. unfold series_at. destruct (h !! l) as [[]|]; reflexivity. Qed.

Lemma preserving_scaler_at (l : loc) : preserving (scaler_at l).
Proof. intros h. unfold scaler_at. destruct (h !! l) as [[]|]; reflexivity. Qed.

Lemma new_fresh (o : obj) (h : heap) : h !! fresh (dom h) = None.
Proof. apply not_elem_of_dom, is_fresh. Qed.

Lemma preserving_new (o : obj) : preserving (new o).
Proof. intros h. simpl. apply insert_subseteq, new_fresh, o. Qed.

Lemma preserving_bind {A B : Type} (m : comp A) (f : A -> comp B) :
  preserving m -> (forall a, preserving (f a)) -> preserving (m ≫= f).
Proof.
  intros Hm Hf h. unfold mbind, comp_bind.
  specialize (Hm h). destruct (m h) as [[a|e] h1]; simpl in *.
  - etransitivity; [exact Hm | apply Hf].
  - exact Hm.
Qed.

Lemma allocating_new (M : matrix) : allocating (new (OFrame M)).
Proof.
  intros h. split; [apply preserving_new|].
  simpl. intros l [= <-]. split; [apply new_fresh, (OFrame M)|].
  exists M. apply lookup_insert_eq.
Qed.

Lemma allocating_bind {A : Type} (m : comp A) (f : A -> comp loc) :
  preserving m -> (forall a, allocating (f a)) -> allocating (m ≫= f).
Proof.
  intros Hm Hf h. unfold mbind, comp_bind.
  specialize (Hm h). destruct (m h) as [[a|e] h1]; simpl in *.
  - destruct (Hf a h1) as [Hsub Hnew]. split.
    + etransitivity; eassumption.
    + intros l Hl. destruct (Hnew l Hl) as [Hfresh HM]. split; [|exact HM].
      destruct (h !! l) as [o|] eqn:Hold; [|reflexivity].
      rewrite (lookup_weaken _ _ _ _ Hold Hm) in Hfresh. discriminate.
  - split; [exact Hm | discriminate].
Qed.

Lemma preserving_center_of (self : loc) : preserving (center_of self).
Proof.
  apply preserving_bind; [apply preserving_scaler_at|].
  intros [c s]. apply preserving_ret.
Qed.

Lemma preserving_scale_of (self : loc) : preserving (scale_of self).
Proof.
  apply preserving_bind; [apply preserving_scaler_at|].
  intros [c s]. apply preserving_ret.
Qed.

Create HintDb frame.

#[local] Hint Resolve preserving_lift preserving_ret preserving_frame_at
  preserving_series_at preserving_new preserving_center_of
  preserving_scale_of allocating_new : frame.

(** Peel the leading call off a sequence of calls. *)
Ltac frame_step :=
  first
    [ apply allocating_new
    | apply allocating_bind; [solve [auto with frame] | intros ?] ].

Lemma allocating_transform (self x : loc) : allocating (transform self x).
Proof. unfold transform. repeat frame_step. Qed.

Lemma allocating_inverse_transform (self x : loc) :
  allocating (inverse_transform self x).
Proof. unfold inverse_transform. repeat frame_step. Qed.

(** *** Agreement with the value semantics *)

Lemma bind_eval {A B : Type} (m : comp A) (f : A -> comp B)
    (h h1 : heap) (a : A) :
  m h = (Ok a, h1) -> (m ≫= f) h = f a h1.
Proof. intros H. unfold mbind, comp_bind. rewrite H. reflexivity. Qed.

Lemma center_of_eval (h : heap) (self : loc) (c s : option loc) :
  h !! self = Some (OScaler c s) -> center_of self h = (Ok c, h).
Proof.
  intros H. unfold center_of, scaler_at, mbind, comp_bind.
  rewrite H. reflexivity.
Qed.

Lemma scale_of_eval (h : heap) (self : loc) (c s : option loc) :
  h !! self = Some (OScaler c s) -> scale_of self h = (Ok s, h).
Proof.
  intros H. unfold scale_of, scaler_at, mbind, comp_bind.
  rewrite H. reflexivity.
Qed.

Lemma frame_at_eval (h : heap) (l : loc) (M : matrix) :
  h !! l = Some (OFrame M) -> frame_at l h = (Ok M, h).
Proof. intros H. unfold frame_at. rewrite H. reflexivity. Qed.

Lemma series_at_eval (h : heap) (l : loc) (s : series) :
  h !! l = Some (OSeries s) -> series_at l h = (Ok s, h).
Proof. intros H. unfold series_at. rewrite H. reflexivity. Qed.

(** An object that exists is still there after an allocation. *)
Lemma lookup_after_new (h : heap) (o o' : obj) (l : loc) :
  h !! l = Some o -> <[fresh (dom h) := o']> h !! l = Some o.
Proof.
  intros H. rewrite lookup_insert_ne; [exact H|].
  intros <-. rewrite (new_fresh o' h) in H. discriminate.
Qed.

(** Run the leading call of a sequence whose outcome is known. *)
Ltac eval_call lem :=
  erewrite bind_eval; [| first [eapply lem; eassumption | reflexivity]].

(** On a fitted instance, [transform] on the heap returns a new frame
    holding what [transform] on values computes. *)
Lemma transform_refines (h : heap) (self x cl sl : loc) (c s : series)
    (X : matrix) :
  h !! self = Some (OScaler (Some cl) (Some sl)) ->
  h !! cl = Some (OSeries c) ->
  h !! sl = Some (OSeries s) ->
  h !! x = Some (OFrame X) ->
  exists l h' M,
    transform self x h = (Ok l, h') /\
    MCUVScaler.transform (MCUVScaler.Scaler (Some c) (Some s)) X = Ok M /\
    h' !! l = Some (OFrame M).
Proof.
  intros Hself Hcl Hsl Hx. unfold transform.
  eval_call center_of_eval. eval_call center_of_eval.
  eval_call scale_of_eval. eval_call scale_of_eval.
  eval_call frame_at_eval. eval_call frame_at_eval.
  set (h1 := <[fresh (dom h) := OFrame (Frame.copy X)]> h).
  assert (h1 !! fresh (dom h) = Some (OFrame (Frame.copy X))) as Hx1
    by apply lookup_insert_eq.
  pose proof (lookup_after_new h _ (OFrame (Frame.copy X)) _ Hself) as Hself1.
  pose proof (lookup_after_new h _ (OFrame (Frame.copy X)) _ Hcl) as Hcl1.
  pose proof (lookup_after_new h _ (OFrame (Frame.copy X)) _ Hsl) as Hsl1.
  fold h1 in Hself1, Hcl1, Hsl1.
  eval_call frame_at_eval. eval_call center_of_eval.
  eval_call center_of_eval. eval_call series_at_eval.
  eval_call series_at_eval.
  set (D := Frame.frame_op F64.sub (Frame.copy X) c).
  set (h2 := <[fresh (dom h1) := OFrame D]> h1).
  assert (h2 !! fresh (dom h1) = Some (OFrame D)) as Hd2
    by apply lookup_insert_eq.
  pose proof (lookup_after_new h1 _ (OFrame D) _ Hself1) as Hself2.
  pose proof (lookup_after_new h1 _ (OFrame D) _ Hsl1) as Hsl2.
  fold h2 in Hself2, Hsl2.
  eval_call frame_at_eval. eval_call scale_of_eval.
  eval_call scale_of_eval. eval_call series_at_eval.
  eexists _, _, _. split; [reflexivity|]. split; [reflexivity|].
  apply lookup_insert_eq.
Qed.

(** The same for [inverse_transform]. *)
Lemma inverse_transform_refines (h : heap) (self x cl sl : loc) (c s : series)
    (X : matrix) :
  h !! self = Some (OScaler (Some cl) (Some sl)) ->
  h !! cl = Some (OSeries c) ->
  h !! sl = Some (OSeries s) ->
  h !! x = Some (OFrame X) ->
  exists l h' M,
    inverse_transform self x h = (Ok l, h') /\
    MCUVScaler.inverse_transform (MCUVScaler.Scaler (Some c) (Some s)) X
      = Ok M /\
    h' !! l = Some (OFrame M).
Proof.
  intros Hself Hcl Hsl Hx. unfold inverse_transform.
  eval_call center_of_eval. eval_call center_of_eval.
  eval_call scale_of_eval. eval_call scale_of_eval.
  eval_call frame_at_eval. eval_call frame_at_eval.
  set (h1 := <[fresh (dom h) := OFrame (Frame.copy X)]> h).
  assert (h1 !! fresh (dom h) = Some (OFrame (Frame.copy X))) as Hx1
    by apply lookup_insert_eq.
  pose proof (lookup_after_new h _ (OFrame (Frame.copy X)) _ Hself) as Hself1.
  pose proof (lookup_after_new h _ (OFrame (Frame.copy X)) _ Hcl) as Hcl1.
  pose proof (lookup_after_new h _ (OFrame (Frame.copy X)) _ Hsl) as Hsl1.
  fold h1 in Hself1, Hcl1, Hsl1.
  eval_call frame_at_eval. eval_call scale_of_eval.
  eval_call scale_of_eval. eval_call series_at_eval.
  eval_call series_at_eval.
  set (D := Frame.frame_op F64.mul (Frame.copy X) s).
  set (h2 := <[fresh (dom h1) := OFrame D]> h1).
  assert (h2 !! fresh (dom h1) = Some (OFrame D)) as Hd2
    by apply lookup_insert_eq.
  pose proof (lookup_after_new h1 _ (OFrame D) _ Hself1) as Hself2.
  pose proof (lookup_after_new h1 _ (OFrame D) _ Hcl1) as Hcl2.
  fold h2 in Hself2, Hcl2.
  eval_call frame_at_eval. eval_call center_of_eval.
  eval_call center_of_eval. eval_call series_at_eval.
  eexists _, _, _. split; [reflexivity|]. split; [reflexivity|].
  apply lookup_insert_eq.
Qed.

End RefFacts.

(** C10. [transform] and [inverse_transform] leave every object of the
    heap they start from as it was (so the input frame, the scaler
    instance and its center and scale series), and the frame they
    return is stored at an address that was not in use before the
    call. *)
Theorem transforms_leave_heap (h : Ref.heap) (self x : Ref.loc) :
  (forall l o, h !! l = Some o ->
     (Ref.transform self x h).2 !! l = Some o /\
     (Ref.inverse_transform self x h).2 !! l = Some o) /\
  (forall l, (Ref.transform self x h).1 = Ok l ->
     h !! l = None /\
     exists M, (Ref.transform self x h).2 !! l = Some (Ref.OFrame M)) /\
  (forall l, (Ref.inverse_transform self x h).1 = Ok l ->
     h !! l = None /\
     exists M, (Ref.inverse_transform self x h).2 !! l = Some (Ref.OFrame M)).
Proof.
  destruct (RefFacts.allocating_transform self x h) as [Ht Htl].
  destruct (RefFacts.allocating_inverse_transform self x h) as [Hi Hil].
  repeat split.
  - eapply lookup_weaken; eassumption.
  - eapply lookup_weaken; eassumption.
  - apply Htl; assumption.
  - apply Htl; assumption.
  - apply Hil; assumption.
  - apply Hil; assumption.
Qed.

(** ** Facts about frames and arrays *)

Module FrameFacts.

Lemma mapM_ok {A B : Type} (f : A -> result B) (g : A -> B) (l : list A) :
  Forall (fun a => f a = Ok (g a)) l -> mapM f l = Ok (map g l).
Proof.
  induction 1 as [|a l Ha _ IH]; [reflexivity|].
  simpl. rewrite Ha. simpl. rewrite IH. reflexivity.
Qed.

(** An array divided (or otherwise combined) row by row with a 1-D
    array as long as its rows. *)
Lemma np_op_1d_rows (op : float -> float -> float) (T : matrix) (s : series) :
  Frame.wf T -> length s = ncols T ->
  Frame.np_op_1d op T s =
    Ok (Mat (ncols T) (map (fun r => zip_with op r s) (rows T))).
Proof.
  intros Hwf Hlen. unfold Frame.np_op_1d.
  rewrite Hlen, Nat.eqb_refl. simpl.
  rewrite (mapM_ok _ (fun r => zip_with op r s)).
  - simpl. rewrite Nat.max_id. reflexivity.
  - eapply Forall_impl; [exact Hwf|]. intros r Hr. simpl in Hr.
    unfold Frame.np_row_op. rewrite Hr, Hlen, Nat.eqb_refl. reflexivity.
Qed.

(** A frame minus an array of its own shape. *)
Lemma frame_sub_array_same_shape (X M : matrix) :
  Frame.nrows X = Frame.nrows M -> ncols X = ncols M ->
  Frame.frame_sub_array X M =
    Ok (Mat (ncols X) (zip_with (zip_with F64.sub) (rows X) (rows M))).
Proof.
  intros Hr Hc. unfold Frame.frame_sub_array.
  rewrite Hr, Hc, !Nat.eqb_refl. reflexivity.
Qed.

Lemma add_finite (x y : float) :
  F64.is_finite x = true -> F64.is_finite y = true ->
  F64.is_finite (F64.add x y) = true.
Proof. destruct x, y; simpl; congruence. Qed.

Lemma sub_finite (x y : float) :
  F64.is_finite x = true -> F64.is_finite y = true ->
  F64.is_finite (F64.sub x y) = true.
Proof. destruct x, y; simpl; congruence. Qed.

Lemma mul_finite (x y : float) :
  F64.is_finite x = true -> F64.is_finite y = true ->
  F64.is_finite (F64.mul x y) = true.
Proof. destruct x, y; simpl; congruence. Qed.

Lemma sum_finite (l : series) :
  forallb F64.is_finite l = true -> F64.is_finite (F64.sum l) = true.
Proof.
  unfold F64.sum. generalize (Fin 0) (eq_refl : F64.is_finite (Fin 0) = true).
  induction l as [|x l IH]; intros a Ha; simpl; [intros _; exact Ha|].
  intros H. apply andb_prop in H as [Hx Hl].
  apply IH; [apply add_finite|]; assumption.
Qed.

Lemma dropna_finite (l : series) :
  forallb F64.is_finite l = true -> Frame.dropna l = l.
Proof.
  induction l as [|x l IH]; simpl; [reflexivity|].
  intros H. apply andb_prop in H as [Hx Hl].
  destruct x; try discriminate. simpl. rewrite IH by assumption. reflexivity.
Qed.

Lemma forallb_lookup {A : Type} (p : A -> bool) (l : list A) (i : nat) (x : A) :
  forallb p l = true -> l !! i = Some x -> p x = true.
Proof.
  revert i. induction l as [|y l IH]; intros i H Hi; [discriminate|].
  simpl in H. apply andb_prop in H as [Hy Hl].
  destruct i as [|i]; simpl in Hi; [congruence | eauto].
Qed.

Lemma forallb_zip_with {A B C: Type} (p : A -> bool) (q : B -> bool)
    (r : C -> bool) (f : A -> B -> C) (l : list A) (k : list B) :
  (forall a b, p a = true -> q b = true -> r (f a b) = true) ->
  forallb p l = true -> forallb q k = true ->
  forallb r (zip_with f l k) = true.
Proof.
  intros Hf. revert k. induction l as [|a l IH]; intros [|b k]; simpl; auto.
  intros Hl Hk. apply andb_prop in Hl as [? ?]. apply andb_prop in Hk as [? ?].
  apply andb_true_intro. auto.
Qed.

Lemma forallb_map_intro {A B : Type} (p : B -> bool) (f : A -> B) (l : list A) :
  (forall a, a ∈ l -> p (f a) = true) -> forallb p (map f l) = true.
Proof.
  induction l as [|a l IH]; intros H; simpl; [reflexivity|].
  apply andb_true_intro. split.
  - apply H. left.
  - apply IH. intros b Hb. apply H. right. exact Hb.
Qed.

(** A property of all entries holds of the entries of every column. *)
Lemma col_forallb (p : float -> bool) (C : matrix) (j : nat) :
  Frame.wf C -> forallb (forallb p) (rows C) = true -> j < ncols C ->
  forallb p (Frame.col j C) = true.
Proof.
  intros Hwf Hfin Hj. unfold Frame.col. apply forallb_map_intro.
  intros r Hr. apply list_elem_of_lookup in Hr as [i Hi].
  pose proof (forallb_lookup _ _ _ _ Hfin Hi) as Hrow.
  unfold Frame.wf in Hwf. rewrite Forall_lookup in Hwf.
  specialize (Hwf _ _ Hi). simpl in Hwf.
  rewrite nth_lookup.
  destruct (lookup_lt_is_Some_2 r j) as [x Hx]; [lia|].
  rewrite Hx. simpl. eapply forallb_lookup; eassumption.
Qed.

(** A column of a well-formed finite array is finite. *)
Lemma col_finite (C : matrix) (j : nat) :
  Frame.wf C -> Frame.all_finite C = true -> j < ncols C ->
  forallb F64.is_finite (Frame.col j C) = true.
Proof. apply col_forallb. Qed.

Lemma col_length (j : nat) (C : matrix) :
  length (Frame.col j C) = Frame.nrows C.
Proof. apply length_map. Qed.

Lemma col_reduce_lookup (f : series -> float) (X : matrix) (j : nat) :
  j < ncols X -> Frame.col_reduce f X !! j = Some (f (Frame.col j X)).
Proof.
  intros Hj. unfold Frame.col_reduce.
  rewrite list_lookup_fmap.
  replace (seq 0 (ncols X) !! j) with (Some j); [reflexivity|].
  symmetry. apply lookup_seq. split; [reflexivity | exact Hj].
Qed.

Lemma col_reduce_length (f : series -> float) (X : matrix) :
  length (Frame.col_reduce f X) = ncols X.
Proof. unfold Frame.col_reduce. rewrite length_map. apply length_seq. Qed.

(** Aligning a row with a series of the same length pairs them up. *)
Lemma align_zip_with (op : float -> float -> float) (r s : series) :
  length r = length s -> Frame.align op r s = zip_with op r s.
Proof.
  revert s. induction r as [|x r IH]; intros [|y s]; simpl; try discriminate.
  - reflexivity.
  - intros [= H]. rewrite IH by exact H. reflexivity.
Qed.

Lemma dot_finite (u v : series) :
  forallb F64.is_finite u = true -> forallb F64.is_finite v = true ->
  F64.is_finite (Frame.dot u v) = true.
Proof.
  intros Hu Hv. apply sum_finite.
  eapply forallb_zip_with; [|exact Hu|exact Hv]. apply mul_finite.
Qed.

End FrameFacts.

(** ** The statistics stored by fit *)

Section FitStatistics.

Variable sk_params : Type.
Variable sk_decompose :
  option Z -> sk_params -> matrix -> result (sk_fitted * matrix).

Local Abbreviation pca_fit := (fit sk_params sk_decompose).

(** What a successful [fit] went through and what it stored. *)
Lemma fit_inv (self self' : PCA sk_params) (X : matrix) :
  pca_fit self X = Ok self' ->
  exists fitted T scaled TC E,
    sk_validate X = Ok tt /\
    Frame.np_op_1d F64.div T (map F64.sqrt (sk_explained_variance_ fitted))
      = Ok scaled /\
    Frame.matmul T (sk_components_ fitted) = Ok TC /\
    Frame.frame_sub_array X TC = Ok E /\
    self' =
      MkPCA _ (n_components _ self) (params _ self)
        (Some (sk_components_ fitted)) (Some (sk_explained_variance_ fitted))
        (Some (Z.of_nat (Frame.nrows X)))
        (Some (map F64.sqrt (sk_explained_variance_ fitted)))
        (Some T)
        (Some (Frame.np_row_sums (Frame.map_cells F64.sqr scaled)))
        (Some (Frame.row_sums (Frame.map_cells F64.sqr E))).
Proof.
  unfold fit, super_fit, super_fit_transform, mbind, result_bind. cbn.
  destruct (sk_validate X) as [[]|]; cbn; [|discriminate].
  destruct (sk_decompose (n_components _ self) (params _ self) X)
    as [[fitted T]|e] eqn:Hsk; cbn; [|discriminate].
  rewrite ?Hsk. cbn.
  destruct (Frame.np_op_1d _ T _) as [scaled|] eqn:Hop; cbn; [|discriminate].
  destruct (Frame.matmul T _) as [TC|] eqn:Hmm; cbn; [|discriminate].
  destruct (Frame.frame_sub_array X TC) as [E|] eqn:Hsub; cbn; [|discriminate].
  intros [= <-]. exists fitted, T, scaled, TC, E. auto.
Qed.

(** C7. After a successful [fit] on a frame [X] with N rows and K
    columns, where scikit-learn returned finite scores [T] with N rows,
    finite components [C] with K columns and one explained variance per
    score column:
    [hotellings_T2] and [squared_prediction_error] have length N; entry
    i of [squared_prediction_error] is the sum of the squared entries of
    row i of X - T @ C; entry i of [hotellings_T2] is the sum over the
    components a of (T[i,a] / sqrt(explained_variance[a]))^2. *)
Theorem fit_statistics (self self' : PCA sk_params) (X T C : matrix)
    (ev : series) :
  pca_fit self X = Ok self' ->
  Frame.wf X ->
  t_scores _ self' = Some T ->
  components_ _ self' = Some C ->
  explained_variance_ _ self' = Some ev ->
  Frame.wf T -> Frame.wf C ->
  Frame.all_finite T = true -> Frame.all_finite C = true ->
  Frame.nrows T = Frame.nrows X -> ncols C = ncols X ->
  length ev = ncols T ->
  exists t2 spe,
    hotellings_T2 _ self' = Some t2 /\
    squared_prediction_error _ self' = Some spe /\
    length t2 = Frame.nrows X /\
    length spe = Frame.nrows X /\
    forall i, i < Frame.nrows X ->
      exists x_i t_i,
        rows X !! i = Some x_i /\
        rows T !! i = Some t_i /\
        spe !! i =
          Some (F64.sum
                  (map F64.sqr
                     (zip_with F64.sub x_i
                        (map (fun j => Frame.dot t_i (Frame.col j C))
                             (seq 0 (ncols C)))))) /\
        t2 !! i =
          Some (F64.sum
                  (map F64.sqr (zip_with F64.div t_i (map F64.sqrt ev)))).
Proof.
  intros Hfit HwfX HT HC Hev HwfT HwfC HfinT HfinC Hrows Hcols Hlen.
  apply fit_inv in Hfit
    as (fitted & T0 & scaled & TC & E & Hval & Hop & Hmm & Hsub & ->).
  simpl in HT, HC, Hev. injection HT as ->. injection HC as <-.
  injection Hev as <-.
  rewrite FrameFacts.np_op_1d_rows in Hop
    by (try assumption; rewrite length_map; exact Hlen).
  injection Hop as <-.
  unfold Frame.matmul in Hmm.
  destruct (ncols T =? Frame.nrows (sk_components_ fitted)); [|discriminate].
  injection Hmm as <-.
  rewrite FrameFacts.frame_sub_array_same_shape in Hsub
    by (unfold Frame.nrows in *; simpl; rewrite ?length_map; congruence).
  simpl in Hsub. injection Hsub as <-.
  unfold Frame.nrows in Hrows. symmetry in Hrows, Hcols.
  unfold sk_validate in Hval.
  destruct (Frame.all_finite X) eqn:HfinX;
    [|rewrite andb_false_r in Hval; discriminate].
  eexists _, _. split; [reflexivity|]. split; [reflexivity|].
  unfold Frame.np_row_sums, Frame.row_sums, Frame.map_cells, Frame.nrows.
  simpl. rewrite !length_map, length_zip_with, length_map, <- Hrows.
  split; [reflexivity|]. split; [lia|].
  intros i Hi.
  destruct (lookup_lt_is_Some_2 (rows X) i Hi) as [x_i Hx].
  destruct (lookup_lt_is_Some_2 (rows T) i) as [t_i Ht]; [lia|].
  exists x_i, t_i. split; [exact Hx|]. split; [exact Ht|].
  rewrite !list_lookup_fmap, lookup_zip_with, list_lookup_fmap, Hx, Ht.
  simpl. split; [|reflexivity].
  rewrite FrameFacts.dropna_finite; [reflexivity|].
  apply FrameFacts.forallb_map_intro. intros e He.
  apply list_elem_of_lookup in He as [j Hj].
  apply FrameFacts.mul_finite;
    (eapply FrameFacts.forallb_lookup; [|exact Hj]);
    (eapply FrameFacts.forallb_zip_with;
       [apply FrameFacts.sub_finite
       |eapply FrameFacts.forallb_lookup; [exact HfinX | exact Hx]
       |]);
    (apply FrameFacts.forallb_map_intro; intros k Hk;
     apply elem_of_seq in Hk;
     apply FrameFacts.dot_finite;
       [eapply FrameFacts.forallb_lookup; [exact HfinT | exact Ht]
       |apply FrameFacts.col_finite; [assumption | assumption | lia]]).
Qed.

End FitStatistics.

(** ** Agreement of the pandas reductions with the textbook statistics *)

Module StatsFacts.

Import Stats F64Facts.
Open Scope R_scope.

Lemma observed_finite (v : series) :
  forallb F64.is_finite v = true -> map Fin (observed v) = v.
Proof.
  induction v as [|x v IH]; simpl; [reflexivity|].
  intros H. apply andb_prop in H as [Hx Hv].
  destruct x; try discriminate. simpl. rewrite IH by exact Hv. reflexivity.
Qed.

Lemma dropna_observed (v : series) :
  no_inf v = true -> Frame.dropna v = map Fin (observed v).
Proof.
  unfold no_inf. induction v as [|x v IH]; simpl; [reflexivity|].
  intros H. apply andb_prop in H as [Hx Hv].
  destruct x; try discriminate; simpl; rewrite IH by exact Hv; reflexivity.
Qed.

Lemma Rsum_nonneg (l : list R) : Forall (fun x => 0 <= x) l -> 0 <= Rsum l.
Proof. induction 1; simpl; lra. Qed.

Lemma Rsum_zero (l : list R) : Forall (fun x => x = 0) l -> Rsum l = 0.
Proof. induction 1; simpl; lra. Qed.

Lemma Rsum_map_ext (f g : R -> R) (l : list R) :
  (forall x, f x = g x) -> Rsum (map f l) = Rsum (map g l).
Proof. intros H. induction l; simpl; [|rewrite H, IHl]; reflexivity. Qed.

Lemma Rvar1_nonneg (l : list R) : (2 <= length l)%nat -> 0 <= Rvar1 l.
Proof.
  intros Hlen. unfold Rvar1.
  apply Rmult_le_pos.
  - apply Rsum_nonneg, Forall_forall. intros y Hy.
    apply list_elem_of_fmap in Hy as [x [-> _]].
    apply (Rle_0_sqr (x - Rmean l)).
  - left. apply Rinv_0_lt_compat. apply lt_0_INR. lia.
Qed.

(** The pandas mean of a column is the mean of its observed values. *)
Lemma mean_observed (v : series) :
  no_inf v = true -> (1 <= length (observed v))%nat ->
  Frame.mean v = Fin (Rmean (observed v)).
Proof.
  intros Hinf Hlen. unfold Frame.mean, F64.of_nat.
  rewrite dropna_observed by exact Hinf.
  rewrite sum_fin, length_map, div_fin; [reflexivity|].
  apply not_0_INR. lia.
Qed.

(** The pandas variance with ddof = 1 is the sample variance. *)
Lemma var_observed (v : series) :
  no_inf v = true -> (2 <= length (observed v))%nat ->
  Frame.var 1 v = Fin (Rvar1 (observed v)).
Proof.
  intros Hinf Hlen. unfold Frame.var, F64.of_nat.
  rewrite dropna_observed by exact Hinf. rewrite length_map.
  destruct (Nat.leb_spec (length (observed v)) 1) as [Hle|_]; [lia|].
  rewrite sum_fin, div_fin by (apply not_0_INR; lia).
  rewrite map_map. simpl.
  rewrite <- (map_map (fun x => (Rsum (observed v) / INR (length (observed v))
                                 + - x)
                                * (Rsum (observed v) / INR (length (observed v))
                                   + - x)) Fin).
  rewrite sum_fin, div_fin by (apply not_0_INR; lia).
  unfold Rvar1, Rmean. do 2 f_equal.
  apply Rsum_map_ext. intros x. lra.
Qed.

(** The pandas standard deviation with ddof = 1 is the sample standard
    deviation. *)
Lemma std_observed (v : series) :
  no_inf v = true -> (2 <= length (observed v))%nat ->
  Frame.std 1 v = Fin (Rstd1 (observed v)).
Proof.
  intros Hinf Hlen. unfold Frame.std. rewrite var_observed by assumption.
  simpl. rewrite Rltb_false by (apply Rvar1_nonneg; exact Hlen). reflexivity.
Qed.

End StatsFacts.

(** ** The scaler *)

Module ScalerFacts.

Import Stats F64Facts.
Open Scope R_scope.

(** What [fit] stores, whatever the instance held before. *)
Lemma fit_attrs (self : MCUVScaler.t) (X : matrix) :
  MCUVScaler.fit self X =
    MCUVScaler.Scaler
      (Some (Frame.col_reduce Frame.mean X))
      (Some (MCUVScaler.mask_zero (Frame.col_reduce (Frame.std 1) X))).
Proof. reflexivity. Qed.

Lemma transform_fitted (c sc : series) (X : matrix) :
  MCUVScaler.transform (MCUVScaler.Scaler (Some c) (Some sc)) X =
    Ok (Frame.frame_op F64.div (Frame.frame_op F64.sub X c) sc).
Proof. reflexivity. Qed.


(** One entry of [M (op) s] when the series has one value per column. *)
Lemma frame_op_cell (op : float -> float -> float) (M : matrix) (s : series)
    (i j : nat) (m : float) :
  Frame.wf M -> length s = ncols M ->
  Frame.cell M i j = Some m ->
  exists y, s !! j = Some y /\
    Frame.cell (Frame.frame_op op M s) i j = Some (op m y).
Proof.
  intros Hwf Hlen. unfold Frame.cell, Frame.frame_op. simpl.
  destruct (rows M !! i) as [r|] eqn:Hr; [|discriminate]. simpl.
  intros Hm.
  unfold Frame.wf in Hwf. rewrite Forall_lookup in Hwf.
  pose proof (Hwf _ _ Hr) as Hrlen. simpl in Hrlen.
  destruct (lookup_lt_is_Some_2 s j) as [y Hy].
  { rewrite Hlen, <- Hrlen. apply lookup_lt_is_Some_1. eauto. }
  exists y. split; [exact Hy|].
  rewrite list_lookup_fmap, Hr. simpl.
  rewrite FrameFacts.align_zip_with by lia.
  rewrite lookup_zip_with, Hm, Hy. reflexivity.
Qed.

Lemma frame_op_wf (op : float -> float -> float) (M : matrix) (s : series) :
  Frame.wf M -> length s = ncols M ->
  Frame.wf (Frame.frame_op op M s) /\
  ncols (Frame.frame_op op M s) = ncols M /\
  Frame.nrows (Frame.frame_op op M s) = Frame.nrows M.
Proof.
  intros Hwf Hlen. unfold Frame.wf, Frame.frame_op, Frame.nrows in *. simpl.
  rewrite Hlen, Nat.max_id, length_map. repeat split.
  apply Forall_fmap. eapply Forall_impl; [exact Hwf|].
  intros r Hr. simpl in *.
  rewrite FrameFacts.align_zip_with, length_zip_with by lia. lia.
Qed.


End ScalerFacts.

(** ** The scaler in binary64 arithmetic *)

Module IEEEFacts.

Import IEEE.

(** NaN absorbs every operation. *)
Lemma b64_sub_nan_l (y : spec_float) : B64.sub B64.nan y = B64.nan.
Proof. destruct y; reflexivity. Qed.

Lemma b64_div_nan_l (y : spec_float) : B64.div B64.nan y = B64.nan.
Proof. destruct y; reflexivity. Qed.

Lemma b64_mul_nan_l (y : spec_float) : B64.mul B64.nan y = B64.nan.
Proof. destruct y; reflexivity. Qed.

Lemma b64_add_nan_l (y : spec_float) : B64.add B64.nan y = B64.nan.
Proof. destruct y; reflexivity. Qed.


Lemma b64_mul_nan_r (x : spec_float) : B64.mul x B64.nan = B64.nan.
Proof. destruct x; reflexivity. Qed.


Lemma b64_col_length (j : nat) (X : matrix) :
  length (Frame.col j X) = Frame.nrows X.
Proof. apply length_map. Qed.

Lemma b64_col_reduce_lookup (f : series -> spec_float) (X : matrix) (j : nat) :
  j < ncols X -> Frame.col_reduce f X !! j = Some (f (Frame.col j X)).
Proof.
  intros Hj. unfold Frame.col_reduce.
  rewrite list_lookup_fmap.
  replace (seq 0 (ncols X) !! j) with (Some j); [reflexivity|].
  symmetry. apply lookup_seq. split; [reflexivity | exact Hj].
Qed.

Lemma b64_col_reduce_length (f : series -> spec_float) (X : matrix) :
  length (Frame.col_reduce f X) = ncols X.
Proof. unfold Frame.col_reduce. rewrite length_map. apply length_seq. Qed.

(** Aligning a row with a series of the same length pairs them up. *)
Lemma b64_align_zip_with (op : spec_float -> spec_float -> spec_float)
    (r s : series) :
  length r = length s -> Frame.align op r s = zip_with op r s.
Proof.
  revert s. induction r as [|x r IH]; intros [|y s]; simpl; try discriminate.
  - reflexivity.
  - intros [= H]. rewrite IH by exact H. reflexivity.
Qed.

(** One entry of [M (op) s] when the series has one value per column. *)
Lemma b64_frame_op_cell (op : spec_float -> spec_float -> spec_float)
    (M : matrix) (s : series) (i j : nat) (m : spec_float) :
  Frame.wf M -> length s = ncols M ->
  Frame.cell M i j = Some m ->
  exists y, s !! j = Some y /\
    Frame.cell (Frame.frame_op op M s) i j = Some (op m y).
Proof.
  intros Hwf Hlen. unfold Frame.cell, Frame.frame_op. simpl.
  destruct (rows M !! i) as [r|] eqn:Hr; [|discriminate]. simpl.
  intros Hm.
  unfold Frame.wf in Hwf. rewrite Forall_lookup in Hwf.
  pose proof (Hwf _ _ Hr) as Hrlen. simpl in Hrlen.
  destruct (lookup_lt_is_Some_2 s j) as [y Hy].
  { rewrite Hlen, <- Hrlen. apply lookup_lt_is_Some_1. eauto. }
  exists y. split; [exact Hy|].
  rewrite list_lookup_fmap, Hr. simpl.
  rewrite b64_align_zip_with by lia.
  rewrite lookup_zip_with, Hm, Hy. reflexivity.
Qed.

Lemma b64_frame_op_wf (op : spec_float -> spec_float -> spec_float)
    (M : matrix) (s : series) :
  Frame.wf M -> length s = ncols M ->
  Frame.wf (Frame.frame_op op M s) /\
  ncols (Frame.frame_op op M s) = ncols M /\
  Frame.nrows (Frame.frame_op op M s) = Frame.nrows M.
Proof.
  intros Hwf Hlen. unfold Frame.wf, Frame.frame_op, Frame.nrows in *. simpl.
  rewrite Hlen, Nat.max_id, length_map. repeat split.
  apply Forall_fmap. eapply Forall_impl; [exact Hwf|].
  intros r Hr. simpl in *.
  rewrite b64_align_zip_with, length_zip_with by lia. lia.
Qed.

(** Two operations in a row, as [transform] and [inverse_transform]
    apply them. *)
Lemma b64_two_ops (op1 op2 : spec_float -> spec_float -> spec_float)
    (M : matrix) (s1 s2 : series) :
  Frame.wf M -> length s1 = ncols M -> length s2 = ncols M ->
  let Z := Frame.frame_op op2 (Frame.frame_op op1 M s1) s2 in
  Frame.wf Z /\ ncols Z = ncols M /\ Frame.nrows Z = Frame.nrows M /\
  forall i j m, Frame.cell M i j = Some m ->
    exists y1 y2, s1 !! j = Some y1 /\ s2 !! j = Some y2 /\
      Frame.cell Z i j = Some (op2 (op1 m y1) y2).
Proof.
  intros Hwf H1 H2 Z. subst Z.
  destruct (b64_frame_op_wf op1 M s1 Hwf H1) as (Hwf1 & Hn1 & Hr1).
  assert (length s2 = ncols (Frame.frame_op op1 M s1)) as H2' by lia.
  destruct (b64_frame_op_wf op2 _ s2 Hwf1 H2') as (Hwf2 & Hn2 & Hr2).
  repeat split; [exact Hwf2 | lia | lia |].
  intros i j m Hm.
  destruct (b64_frame_op_cell op1 M s1 i j m Hwf H1 Hm) as (y1 & Hy1 & Hc1).
  destruct (b64_frame_op_cell op2 _ s2 i j _ Hwf1 H2' Hc1)
    as (y2 & Hy2 & Hc2).
  exists y1, y2. auto.
Qed.

(** What [fit] stores, whatever the instance held before. *)
Lemma b64_fit_attrs (np_sum : series -> spec_float) (self : MCUVScaler.t)
    (X : matrix) :
  MCUVScaler.fit np_sum self X =
    MCUVScaler.Scaler
      (Some (Frame.col_reduce (Frame.mean np_sum) X))
      (Some (MCUVScaler.mask_zero
               (Frame.col_reduce (Frame.std np_sum 1) X))).
Proof. reflexivity. Qed.

Lemma b64_transform_fitted (c sc : series) (X : matrix) :
  MCUVScaler.transform (MCUVScaler.Scaler (Some c) (Some sc)) X =
    Ok (Frame.frame_op B64.div (Frame.frame_op B64.sub X c) sc).
Proof. reflexivity. Qed.

Lemma b64_inverse_transform_fitted (c sc : series) (X : matrix) :
  MCUVScaler.inverse_transform (MCUVScaler.Scaler (Some c) (Some sc)) X =
    Ok (Frame.frame_op B64.add (Frame.frame_op B64.mul X sc) c).
Proof. reflexivity. Qed.

Lemma b64_mask_zero_length (s : series) :
  length (MCUVScaler.mask_zero s) = length s.
Proof. apply length_map. Qed.

(** After the replacement no scale compares equal to 0. *)
Lemma b64_mask_zero_nonzero (s : series) :
  Forall (fun v => B64.eqb v B64.zero = false) (MCUVScaler.mask_zero s).
Proof.
  unfold MCUVScaler.mask_zero. apply Forall_fmap, Forall_forall.
  intros v _. simpl.
  destruct (B64.eqb v B64.zero) eqn:Hv; [reflexivity | exact Hv].
Qed.


End IEEEFacts.

Section ScalerBinary64.

Import IEEE IEEEFacts.

(** numpy's sum of a column; the statements hold whatever its order of
    adding. *)
Variable np_sum : series -> spec_float.

(** C3. A column without variance whose scale is not forced to 1: the
    frame of three rows holding 0.1.  In float64 0.1 + 0.1 + 0.1 is
    0.30000000000000004 and the computed mean 0.10000000000000002, one
    unit in the last place above 0.1, so the computed standard
    deviation is 1.6996749443881478e-17 and does not compare equal to
    0.  [fit] stores that value as scale, not 1, and [transform]
    returns -0.8164965809277261 in every row: the column is scaled,
    against the comment on the line that replaces the zero scales. *)
Theorem scaler_constant_column_scaled :
  let X := Fixture.tenths in
  let self := MCUVScaler.fit Fixture.sum_seq MCUVScaler.init X in
  let z := S754_finite true 7354347395230783 (-53) in
  Frame.col 0 X = [Fixture.tenth; Fixture.tenth; Fixture.tenth] /\
  Fixture.tenth = S754_finite false 7205759403792794 (-56) /\
  MCUVScaler.center_x_ self
    = Some [S754_finite false 7205759403792795 (-56)] /\
  MCUVScaler.scale_x_ self
    = Some [S754_finite false 5515760546423086 (-108)] /\
  MCUVScaler.scale_x_ self <> Some [B64.one] /\
  MCUVScaler.transform self X = Ok (Mat 1 [[z]; [z]; [z]]).
Proof.
  intros X self z.
  split; [reflexivity|].
  split; [vm_compute; reflexivity|].
  split; [vm_compute; reflexivity|].
  split; [vm_compute; reflexivity|].
  split; [|vm_compute; reflexivity].
  vm_compute. discriminate.
Qed.


End ScalerBinary64.

(** ** The claims at concrete inputs *)

Section Instances.

Open Scope R_scope.

Lemma T2_limit_formula_witness :
  T2_limit unit Fixture.isf (Fixture.model 2 50 []) (Fin (95 / 100)) =
    Ok (F64.mul
          (Fin (IZR 2 * (IZR 50 - 1) * (IZR 50 + 1) / (IZR 50 * (IZR 50 - IZR 2))))
          (Fixture.isf (Fin (1 - 95 / 100)) 2 (50 - 2))).
Proof.
  apply (T2_limit_formula unit Fixture.isf (Fixture.model 2 50 []) 2 50);
    first [reflexivity | lra | lia].
Defined.

Lemma SPE_limit_formula_witness :
  exists g h,
    SPE_limit unit Fixture.ppf
      (Fixture.model 1 3 [Fin 1; Fin 2; Fin 4]) (Fin (95 / 100))
    = Ok (F64.mul g (Fixture.ppf (Fin (95 / 100)) h)).
Proof.
  eexists _, _.
  apply (SPE_limit_formula unit Fixture.ppf _ 3 [Fin 1; Fin 2; Fin 4]);
    [reflexivity | reflexivity | lra].
Defined.

Lemma T2_limit_count_not_checked_witness :
  T2_limit unit Fixture.isf (Fixture.model 3 2 []) (Fin (95 / 100)) =
    Ok (F64.mul
          (Fin (IZR 3 * (IZR 2 - 1) * (IZR 2 + 1) / (IZR 2 * (IZR 2 - IZR 3))))
          (Fixture.isf (Fin (1 - 95 / 100)) 3 (2 - 3))).
Proof.
  apply (T2_limit_count_not_checked unit Fixture.isf
           (Fixture.model 3 2 []) 3 2 (95 / 100));
    first [reflexivity | lra | lia].
Defined.

(** C6, the claim as stated, at a model fitted with as many components
    as observations: the call fails in the division, not in a check. *)
Lemma T2_limit_count_check_counterexample :
  exists self,
    fit unit Fixture.decompose (PCA_init unit (Some 2%Z) tt) Fixture.X23
      = Ok self /\
    T2_limit unit Fixture.isf self (Fin (95 / 100)) = Err ZeroDivisionError /\
    ~ (exists e,
         T2_limit unit Fixture.isf self (Fin (95 / 100)) = Err e /\
         raised_by_check e = true).
Proof.
  eexists. split; [reflexivity|].
  assert (forall self : PCA unit,
            n_components _ self = Some 2%Z -> N _ self = Some 2%Z ->
            T2_limit unit Fixture.isf self (Fin (95 / 100))
              = Err ZeroDivisionError) as H.
  { intros self HA HN.
    rewrite (T2_limit_eval unit Fixture.isf self 2 2 (95 / 100))
      by (try assumption; lra).
    reflexivity. }
  split.
  - apply H; reflexivity.
  - intros (e & He & Hcheck). rewrite H in He by reflexivity.
    injection He as <-. discriminate.
Qed.



Lemma fit_statistics_witness :
  exists self',
    fit unit Fixture.decompose (PCA_init unit (Some 1%Z) tt) Fixture.X22
      = Ok self' /\
    exists t2 spe,
      hotellings_T2 unit self' = Some t2 /\
      squared_prediction_error unit self' = Some spe /\
      length t2 = 2%nat /\ length spe = 2%nat.
Proof.
  eexists. split; [reflexivity|].
  match goal with
  | |- exists t2 spe, hotellings_T2 _ ?s = _ /\ _ =>
      destruct (fit_statistics unit Fixture.decompose
                  (PCA_init unit (Some 1%Z) tt) s Fixture.X22
                  (Mat 1 [[Fin 1]; [Fin 3]]) (Mat 2 [[Fin 1; Fin 0]]) [Fin 1])
        as (t2 & spe & Ht2 & Hspe & Hl2 & Hls & _)
  end.
  - reflexivity.
  - repeat constructor.
  - reflexivity.
  - reflexivity.
  - reflexivity.
  - repeat constructor.
  - repeat constructor.
  - reflexivity.
  - reflexivity.
  - reflexivity.
  - reflexivity.
  - reflexivity.
  - exists t2, spe. auto.
Defined.

Lemma refit_equals_fresh_fit_witness :
  exists self2,
    fit unit Fixture.decompose (PCA_init unit (Some 1%Z) tt) Fixture.X23
      = Ok self2.
Proof.
  eassert (fit unit Fixture.decompose (PCA_init unit (Some 1%Z) tt)
             Fixture.X22 = Ok _) as H1
    by (vm_compute; reflexivity).
  match type of H1 with
  | _ = Ok ?s1 =>
      eassert (fit unit Fixture.decompose s1 Fixture.X23 = Ok _) as H2
        by (vm_compute; reflexivity)
  end.
  destruct (refit_equals_fresh_fit _ _ _ _ _ _ _ _ H1 H2) as [H _].
  eexists. exact H.
Defined.

Lemma unfitted_calls_raise_witness :
  let h : Ref.heap := {[ 1%positive := Ref.OScaler None None ]} in
  let h' := Ref.run_calls 1%positive [Ref.CallTransform 2%positive] h in
  Ref.transform 1%positive 2%positive h' = (Err NotFittedError, h').
Proof.
  intros h h'.
  apply (unfitted_calls_raise unit Fixture.ppf h 1%positive 2%positive
           [Ref.CallTransform 2%positive] Fixture.X22 None tt (Fin 1)).
  - reflexivity.
  - reflexivity.
Defined.

End Instances.

(** ** The model on the data of the repository's tests *)

Section Examples.

Import Stats.
Open Scope R_scope.

(** Sample standard deviation of three values around their mean. *)
Lemma Rstd1_three (a d : R) :
  0 <= d -> Rstd1 [a - d; a; a + d] = d.
Proof.
  intros Hd. unfold Rstd1, Rvar1, Rmean, Rsum. simpl.
  replace ((a - d - (a - d + (a + (a + d + 0))) / (1 + 1 + 1)) *
           (a - d - (a - d + (a + (a + d + 0))) / (1 + 1 + 1)) +
           ((a - (a - d + (a + (a + d + 0))) / (1 + 1 + 1)) *
            (a - (a - d + (a + (a + d + 0))) / (1 + 1 + 1)) +
            ((a + d - (a - d + (a + (a + d + 0))) / (1 + 1 + 1)) *
             (a + d - (a - d + (a + (a + d + 0))) / (1 + 1 + 1)) + 0)))
    with ((d * d) * (1 + 1)) by field.
  replace (d * d * (1 + 1) / (1 + 1)) with (d * d) by field.
  apply sqrt_square, Hd.
Qed.

Lemma Rmean_three (a d : R) : Rmean [a - d; a; a + d] = a.
Proof. unfold Rmean, Rsum. simpl. field. Qed.

(** The scaler on the Wold example: centers 4, 4, 4, 3 and standard
    deviations 1, 1, 2, 1. *)
Example wold_fit :
  MCUVScaler.fit MCUVScaler.init Fixture.wold =
    MCUVScaler.Scaler (Some [Fin 4; Fin 4; Fin 4; Fin 3])
                      (Some [Fin 1; Fin 1; Fin 2; Fin 1]).
Proof.
  rewrite ScalerFacts.fit_attrs.
  unfold Frame.col_reduce, Fixture.wold, Frame.col, MCUVScaler.mask_zero.
  cbn [map seq ncols rows nth].
  rewrite !StatsFacts.mean_observed, !StatsFacts.std_observed
    by first [reflexivity | simpl; lia].
  cbn [observed flat_map app].
  replace [3; 4; 5] with [4 - 1; 4; 4 + 1] by (repeat f_equal; lra).
  replace [4; 3; 5] with [4 - 1 + 1; 4 - 1; 4 + 1] by (repeat f_equal; lra).
  replace [2; 4; 6] with [4 - 2; 4; 4 + 2] by (repeat f_equal; lra).
  replace [2; 3; 4] with [3 - 1; 3; 3 + 1] by (repeat f_equal; lra).
  rewrite !Rmean_three, !Rstd1_three by lra.
  assert (Rmean [4 - 1 + 1; 4 - 1; 4 + 1] = 4) as ->
    by (unfold Rmean, Rsum; simpl; field).
  assert (Rstd1 [4 - 1 + 1; 4 - 1; 4 + 1] = 1) as ->.
  { unfold Rstd1, Rvar1, Rmean, Rsum. simpl.
    match goal with
    | |- sqrt ?v = 1 => replace v with 1 by field
    end.
    apply sqrt_1. }
  simpl. rewrite !F64Facts.Reqb_false by lra. reflexivity.
Qed.

(** The round trip in float64 on the frame with a missing entry: the
    second column has a single observed entry, its scale is NaN and
    the entry 5 comes back as NaN. *)
Example round_trip_missing_binary64 :
  let X := IEEE.Fixture.X22_missing in
  let self :=
    IEEE.MCUVScaler.fit IEEE.Fixture.sum_seq IEEE.MCUVScaler.init X in
  (Z ← IEEE.MCUVScaler.transform self X;
   IEEE.MCUVScaler.inverse_transform self Z)
    = Ok (IEEE.Mat 2 [[IEEE.B64.of_Z 1; IEEE.B64.nan];
                      [IEEE.B64.of_Z 2; IEEE.B64.nan]]).
Proof. vm_compute. reflexivity. Qed.

(** The median of an odd and of an even number of values. *)
Example median_odd : Frame.median [Fin 3; Fin 1; Fin 2] = Fin 2.
Proof.
  unfold Frame.median, Frame.sort_values. cbn [Frame.dropna List.filter
    F64.is_nan negb foldr Frame.insert_sorted].
  repeat first [ rewrite F64Facts.leb_fin_true by lra
               | rewrite F64Facts.leb_fin_false by lra
               | progress cbn [Frame.insert_sorted] ].
  reflexivity.
Qed.

Example median_even :
  Frame.median [Fin 4; Fin 1; Fin 3; Fin 2] = Fin ((2 + 3) / 2).
Proof.
  unfold Frame.median, Frame.sort_values. cbn [Frame.dropna List.filter
    F64.is_nan negb foldr Frame.insert_sorted].
  repeat first [ rewrite F64Facts.leb_fin_true by lra
               | rewrite F64Facts.leb_fin_false by lra
               | progress cbn [Frame.insert_sorted] ].
  cbn [length Nat.eqb Nat.even Nat.div Nat.sub nth Nat.divmod fst].
  simpl. rewrite F64Facts.Reqb_false by lra. reflexivity.
Qed.

End Examples.

(** * Further properties of the code *)

(** ** The checks of the limit functions and the limits after fit *)

Section LimitChecks.

Variable sk_params : Type.
Variable sk_decompose :
  option Z -> sk_params -> matrix -> result (sk_fitted * matrix).
Variable f_isf : float -> Z -> Z -> float.
Variable chi2_ppf : float -> float -> float.

Local Abbreviation pca_fit := (fit sk_params sk_decompose).
Local Abbreviation pca_T2_limit := (T2_limit sk_params f_isf).
Local Abbreviation pca_SPE_limit := (SPE_limit sk_params chi2_ppf).

Open Scope R_scope.

Lemma mul_nan_r (x : float) : F64.mul x NaN = NaN.
Proof. destruct x; reflexivity. Qed.

(** A level outside (0, 1) written as a real number. *)
Lemma level_rejected (r : R) :
  r <= 0 \/ 1 <= r ->
  F64.ltb (Fin 0) (Fin r) && F64.ltb (Fin r) (Fin 1) = false.
Proof.
  intros [H|H]; simpl.
  - rewrite F64Facts.Rltb_false by exact H. reflexivity.
  - rewrite (F64Facts.Rltb_false r 1) by exact H. apply andb_false_r.
Qed.

(** X1. [T2_limit] checks the confidence level before it reads
    anything of the instance: a level that is not strictly between 0 and
    1 (NaN and the infinities included) raises [AssertionError]
    whatever the instance holds, fitted or not. *)
Theorem T2_limit_level_asserted (self : PCA sk_params) (level : float) :
  F64.ltb (Fin 0) level && F64.ltb level (Fin 1) = false ->
  pca_T2_limit self level = Err AssertionError.
Proof.
  intros H. unfold T2_limit, mbind, result_bind, py_assert.
  destruct (F64.ltb (Fin 0) level); [|reflexivity].
  rewrite andb_true_l in H. rewrite H. reflexivity.
Qed.

(** X2. On an instance that holds SPE values, [SPE_limit] with a level
    that is not strictly between 0 and 1 raises [AssertionError]; no
    limit is computed from such a level. *)
Theorem SPE_limit_level_asserted (self : PCA sk_params) (spe : series)
    (level : float) :
  squared_prediction_error _ self = Some spe ->
  F64.ltb (Fin 0) level && F64.ltb level (Fin 1) = false ->
  pca_SPE_limit self level = Err AssertionError.
Proof.
  intros Hspe H. unfold SPE_limit. rewrite Hspe.
  unfold check_is_fitted, mbind, result_bind, py_assert.
  destruct (F64.ltb (Fin 0) level); [|reflexivity].
  rewrite andb_true_l in H. rewrite H. reflexivity.
Qed.

(** X3. [T2_limit] has no fitted check: on an instance that was never
    fitted, a valid level gets past the assertions and the read of
    [self.N] raises [AttributeError], not [NotFittedError]. *)
Theorem T2_limit_unfitted_attribute_error (n : option Z) (p : sk_params)
    (level : R) :
  0 < level < 1 ->
  pca_T2_limit (PCA_init _ n p) (Fin level) = Err (AttributeError "N").
Proof.
  intros [Hlo Hhi]. unfold T2_limit.
  rewrite !F64Facts.ltb_fin by assumption. reflexivity.
Qed.

(** After a successful [fit] the instance holds the number of rows of
    the data as [N] and a series of SPE values with one entry per row. *)
Lemma fit_N_spe (self self' : PCA sk_params) (X : matrix) :
  pca_fit self X = Ok self' ->
  N _ self' = Some (Z.of_nat (Frame.nrows X)) /\
  (1 <= Frame.nrows X)%nat /\
  exists spe,
    squared_prediction_error _ self' = Some spe /\
    length spe = Frame.nrows X.
Proof.
  intros Hfit.
  apply fit_inv in Hfit
    as (fitted & T & scaled & TC & E & Hval & _ & _ & Hsub & ->).
  simpl. split; [reflexivity|]. split.
  - unfold sk_validate in Hval.
    destruct (Nat.leb_spec 1 (Frame.nrows X)) as [H|_]; [exact H|].
    discriminate.
  - eexists. split; [reflexivity|].
    unfold Frame.row_sums, Frame.map_cells. simpl. rewrite !length_map.
    unfold Frame.frame_sub_array in Hsub.
    destruct ((Frame.nrows X =? Frame.nrows TC) && (ncols X =? ncols TC))
      eqn:H1.
    { apply andb_prop in H1 as [H1 _]. apply Nat.eqb_eq in H1.
      injection Hsub as <-. simpl. rewrite length_zip_with.
      unfold Frame.nrows in *. lia. }
    destruct ((Frame.nrows X =? Frame.nrows TC) && (ncols TC =? 1)) eqn:H2.
    { apply andb_prop in H2 as [H2 _]. apply Nat.eqb_eq in H2.
      injection Hsub as <-. simpl. rewrite length_zip_with.
      unfold Frame.nrows in *. lia. }
    destruct ((ncols X =? ncols TC) && (Frame.nrows TC =? 1));
      [|discriminate].
    injection Hsub as <-. simpl. rewrite length_map. reflexivity.
Qed.

(** X4. When the component count was left at the constructor's default
    ([None]), [fit] succeeds but [T2_limit] then raises [TypeError]: the
    formula multiplies [self.n_components], not the fitted count. *)
Theorem T2_limit_default_components (p : sk_params) (X : matrix)
    (self' : PCA sk_params) (level : R) :
  pca_fit (PCA_init _ None p) X = Ok self' ->
  0 < level < 1 ->
  pca_T2_limit self' (Fin level) = Err TypeError.
Proof.
  intros Hfit [Hlo Hhi].
  destruct (fit_keeps_params _ _ _ _ _ Hfit) as [Hn _].
  destruct (fit_N_spe _ _ _ Hfit) as (HN & _).
  unfold T2_limit. rewrite !F64Facts.ltb_fin by assumption. simpl.
  rewrite Hn, HN. reflexivity.
Qed.

(** X5. After a successful [fit], [SPE_limit] returns a value for every
    level strictly between 0 and 1: it raises nothing. *)
Theorem SPE_limit_after_fit (self self' : PCA sk_params) (X : matrix)
    (level : R) :
  pca_fit self X = Ok self' ->
  0 < level < 1 ->
  exists v, pca_SPE_limit self' (Fin level) = Ok v.
Proof.
  intros Hfit [Hlo Hhi].
  destruct (fit_N_spe _ _ _ Hfit) as (HN & _ & spe & Hspe & _).
  unfold SPE_limit. rewrite Hspe, HN.
  rewrite !F64Facts.ltb_fin by assumption. simpl.
  destruct (7 <? Z.of_nat (Frame.nrows X))%Z; eexists; reflexivity.
Qed.

(** X6. After a successful [fit] on data with n rows and with an integer
    component count [A]: [T2_limit] uses n as the observation count; for
    [0 <= A < n] it returns the formula's value, and for [A = n] it
    raises [ZeroDivisionError]. *)
Theorem T2_limit_after_fit (self self' : PCA sk_params) (X : matrix)
    (A : Z) (level : R) :
  pca_fit self X = Ok self' ->
  n_components _ self = Some A ->
  0 < level < 1 ->
  let n := Z.of_nat (Frame.nrows X) in
  ((0 <= A < n)%Z ->
     pca_T2_limit self' (Fin level) =
       Ok (F64.mul
             (Fin (IZR A * (IZR n - 1) * (IZR n + 1)
                   / (IZR n * (IZR n - IZR A))))
             (f_isf (Fin (1 - level)) A (n - A)))) /\
  (A = n -> pca_T2_limit self' (Fin level) = Err ZeroDivisionError).
Proof.
  intros Hfit HA Hlevel n.
  destruct (fit_keeps_params _ _ _ _ _ Hfit) as [Hn _].
  destruct (fit_N_spe _ _ _ Hfit) as (HN & Hrows & _).
  rewrite HA in Hn. fold n in HN.
  rewrite (T2_limit_eval _ f_isf self' A n level) by assumption.
  split.
  - intros Hcount. rewrite int_truediv_counts by nia. reflexivity.
  - intros ->. unfold F64.int_truediv.
    replace (n * (n - n))%Z with 0%Z by lia. reflexivity.
Qed.

(** X7. A model fitted on a single row has a single SPE value, whose
    variance with ddof = 1 is NaN: [SPE_limit] returns NaN for every
    valid level, whatever the chi-squared quantile is. *)
Theorem SPE_limit_single_row (self self' : PCA sk_params) (X : matrix)
    (level : R) :
  pca_fit self X = Ok self' ->
  Frame.nrows X = 1%nat ->
  0 < level < 1 ->
  pca_SPE_limit self' (Fin level) = Ok NaN.
Proof.
  intros Hfit Hone [Hlo Hhi].
  destruct (fit_N_spe _ _ _ Hfit) as (HN & _ & spe & Hspe & Hlen).
  unfold SPE_limit. rewrite Hspe, HN, Hone.
  rewrite !F64Facts.ltb_fin by assumption. simpl.
  assert (Frame.var 1 spe = NaN) as ->.
  { unfold Frame.var.
    destruct (Nat.leb_spec (length (Frame.dropna spe)) 1) as [_|Hgt];
      [reflexivity|].
    exfalso. unfold Frame.dropna in Hgt.
    pose proof (List.filter_length_le (fun x => negb (F64.is_nan x)) spe).
    lia. }
  rewrite mul_nan_r. reflexivity.
Qed.

End LimitChecks.

(** ** The SPE limit of a model that reconstructs its data exactly *)

Section ZeroSPE.

Variable sk_params : Type.
Variable chi2_ppf : float -> float -> float.

Import Stats.
Open Scope R_scope.

Lemma all_zero_replicate (spe : series) :
  Forall (fun x => x = Fin 0) spe -> spe = replicate (length spe) (Fin 0).
Proof. induction 1 as [|x l -> _ IH]; simpl; [|rewrite <- IH]; reflexivity. Qed.

Lemma sort_values_zeros (n : nat) :
  Frame.sort_values (replicate n (Fin 0)) = replicate n (Fin 0).
Proof.
  induction n as [|n IH]; [reflexivity|].
  unfold Frame.sort_values in *. simpl. rewrite IH.
  destruct n as [|n]; [reflexivity|]. simpl.
  rewrite F64Facts.leb_fin_true by lra. reflexivity.
Qed.

Lemma dropna_zeros (n : nat) :
  Frame.dropna (replicate n (Fin 0)) = replicate n (Fin 0).
Proof. induction n as [|n IH]; simpl; [|rewrite IH]; reflexivity. Qed.

Lemma observed_zeros (n : nat) :
  observed (replicate n (Fin 0)) = replicate n 0.
Proof. induction n as [|n IH]; simpl; [|rewrite IH]; reflexivity. Qed.

Lemma nth_zeros (i n : nat) :
  (i < n)%nat -> nth i (replicate n (Fin 0)) NaN = Fin 0.
Proof.
  intros H. rewrite nth_lookup, lookup_replicate_2 by exact H. reflexivity.
Qed.

(** The median of zeros is zero. *)
Lemma median_zeros (n : nat) :
  (1 <= n)%nat ->
  exists z, Frame.median (replicate n (Fin 0)) = Fin z /\ z = 0.
Proof.
  intros Hn. unfold Frame.median.
  rewrite dropna_zeros, sort_values_zeros, length_replicate.
  destruct (Nat.eqb_spec n 0) as [->|_]; [lia|].
  assert (n / 2 < n)%nat as Hhalf by (apply Nat.div_lt; lia).
  destruct (Nat.even n).
  - rewrite !nth_zeros by lia.
    change (F64.add (Fin 0) (Fin 0)) with (Fin (0 + 0)).
    rewrite F64Facts.div_fin by lra. eexists. split; [reflexivity | lra].
  - rewrite nth_zeros by lia. eexists. split; reflexivity.
Qed.

Lemma Rsum_zeros (n : nat) : Rsum (replicate n 0) = 0.
Proof. induction n as [|n IH]; simpl; [|rewrite IH]; lra. Qed.

(** The mean of zeros is zero. *)
Lemma mean_zeros (n : nat) :
  (1 <= n)%nat ->
  exists z, Frame.mean (replicate n (Fin 0)) = Fin z /\ z = 0.
Proof.
  intros Hn. rewrite StatsFacts.mean_observed.
  - eexists. split; [reflexivity|].
    rewrite observed_zeros. unfold Rmean.
    rewrite Rsum_zeros. unfold Rdiv. apply Rmult_0_l.
  - clear Hn. induction n; simpl; auto.
  - rewrite observed_zeros, length_replicate. exact Hn.
Qed.

(** The sample variance of at least two zeros is zero. *)
Lemma var_zeros (n : nat) :
  (2 <= n)%nat ->
  exists v, Frame.var 1 (replicate n (Fin 0)) = Fin v /\ v = 0.
Proof.
  intros Hn. rewrite StatsFacts.var_observed.
  - eexists. split; [reflexivity|].
    rewrite observed_zeros. unfold Rvar1, Rmean.
    rewrite Rsum_zeros, length_replicate.
    rewrite StatsFacts.Rsum_zero; [unfold Rdiv; apply Rmult_0_l|].
    apply Forall_forall. intros y Hy.
    apply list_elem_of_fmap in Hy as [x [-> Hx]].
    apply elem_of_replicate in Hx as [-> _].
    unfold Rdiv. rewrite Rmult_0_l. lra.
  - clear Hn. induction n; simpl; auto.
  - rewrite observed_zeros, length_replicate. exact Hn.
Qed.

(** X8. When every SPE value is 0 (the components reconstruct the data
    exactly) and there are at least two of them, center and variance
    are both 0, g = 0 / 0 is NaN and [SPE_limit] returns NaN for every
    valid level: the division is not guarded. *)
Theorem SPE_limit_zero_residuals (self : PCA sk_params) (n : Z)
    (spe : series) (level : R) :
  squared_prediction_error _ self = Some spe ->
  N _ self = Some n ->
  Forall (fun x => x = Fin 0) spe ->
  (2 <= length spe)%nat ->
  0 < level < 1 ->
  SPE_limit _ chi2_ppf self (Fin level) = Ok NaN.
Proof.
  intros Hspe HN Hzero Hlen [Hlo Hhi].
  unfold SPE_limit. rewrite Hspe, HN.
  rewrite !F64Facts.ltb_fin by assumption.
  rewrite (all_zero_replicate spe Hzero).
  destruct (var_zeros (length spe) Hlen) as (v & Hv & ->).
  destruct (median_zeros (length spe)) as (zm & Hzm & ->); [lia|].
  destruct (mean_zeros (length spe)) as (za & Hza & ->); [lia|].
  cbn [check_is_fitted py_assert getattr mbind result_bind].
  rewrite Hv, Hzm, Hza.
  assert (F64.div (Fin 0) (F64.mul (Fin 2) (Fin 0)) = NaN) as Hg.
  { simpl. rewrite F64Facts.Reqb_true by lra.
    unfold F64.Rsign. destruct (total_order_T 0 0) as [[H|H]|H];
      [lra | reflexivity | lra]. }
  destruct (7 <? n)%Z; cbv zeta; rewrite Hg, mul_nan_r; reflexivity.
Qed.

End ZeroSPE.

(** ** The values the scaler computes in float64 *)

Section ScalerValues.

Import IEEE IEEEFacts.

(** numpy's sum of a column; the statements hold whatever its order of
    adding. *)
Variable np_sum : series -> spec_float.

(** X19. A fitted scaler keeps missing entries missing: for a frame
    [M] with one column per stored center and scale, [transform] and
    [inverse_transform] succeed, and every entry of [M] that is NaN is
    NaN in both results. *)
Theorem missing_entries_stay_missing (c sc : series) (M : matrix) :
  Frame.wf M -> length c = ncols M -> length sc = ncols M ->
  exists Z W,
    MCUVScaler.transform (MCUVScaler.Scaler (Some c) (Some sc)) M = Ok Z /\
    MCUVScaler.inverse_transform (MCUVScaler.Scaler (Some c) (Some sc)) M
      = Ok W /\
    forall i j, Frame.cell M i j = Some B64.nan ->
      Frame.cell Z i j = Some B64.nan /\ Frame.cell W i j = Some B64.nan.
Proof.
  intros Hwf Hlc Hls.
  rewrite b64_transform_fitted, b64_inverse_transform_fitted.
  eexists _, _. split; [reflexivity|]. split; [reflexivity|].
  intros i j Hm.
  destruct (b64_two_ops B64.sub B64.div M c sc Hwf Hlc Hls)
    as (_ & _ & _ & HZ).
  destruct (b64_two_ops B64.mul B64.add M sc c Hwf Hls Hlc)
    as (_ & _ & _ & HW).
  destruct (HZ i j _ Hm) as (y1 & y2 & _ & _ & ->).
  destruct (HW i j _ Hm) as (y3 & y4 & _ & _ & ->).
  rewrite b64_sub_nan_l, b64_div_nan_l, b64_mul_nan_l, b64_add_nan_l.
  split; reflexivity.
Qed.

(** X20. Finite data can overflow in [fit]: on the frame of three rows
    holding 1e308 the sum of the column is infinite, so [fit] stores an
    infinite center and an infinite scale, and [transform] of the same
    frame returns NaN in every row. *)
Theorem fit_overflows_on_finite_data :
  let X := Fixture.huge in
  let self := MCUVScaler.fit Fixture.sum_seq MCUVScaler.init X in
  Frame.all_finite X = true /\
  Fixture.e308 = S754_finite false 5010420900022432 971 /\
  MCUVScaler.center_x_ self = Some [S754_infinity false] /\
  MCUVScaler.scale_x_ self = Some [S754_infinity false] /\
  MCUVScaler.transform self X
    = Ok (Mat 1 [[B64.nan]; [B64.nan]; [B64.nan]]).
Proof. intros X self. repeat split; vm_compute; reflexivity. Qed.

(** X21. The round trip is not the identity on finite data: fitted on
    the one-column frame holding 3 and 10 (center 6.5, scale
    4.949747468305833), [inverse_transform] of [transform] of that frame
    returns 2.9999999999999996 in place of 3, and 10 for 10. *)
Theorem round_trip_rounds :
  let X := Fixture.X21 in
  let self := MCUVScaler.fit Fixture.sum_seq MCUVScaler.init X in
  X = Mat 1 [[S754_finite false 6755399441055744 (-51)];
             [S754_finite false 5629499534213120 (-49)]] /\
  MCUVScaler.center_x_ self
    = Some [S754_finite false 7318349394477056 (-50)] /\
  MCUVScaler.scale_x_ self
    = Some [S754_finite false 5572920213460051 (-50)] /\
  (Z ← MCUVScaler.transform self X; MCUVScaler.inverse_transform self Z)
    = Ok (Mat 1 [[S754_finite false 6755399441055743 (-51)];
                 [S754_finite false 5629499534213120 (-49)]]).
Proof. intros X self. repeat split; vm_compute; reflexivity. Qed.

(** X22. On the data of Wold, Esbensen and Geladi used by the
    repository's tests every float64 operation of the scaler is exact:
    [fit] stores the centers 4, 4, 4, 3 and the scales 1, 1, 2, 1, and
    [inverse_transform] of [transform] of the data returns the data. *)
Theorem wold_round_trip :
  let X := Fixture.wold in
  let self := MCUVScaler.fit Fixture.sum_seq MCUVScaler.init X in
  MCUVScaler.center_x_ self
    = Some [B64.of_Z 4; B64.of_Z 4; B64.of_Z 4; B64.of_Z 3] /\
  MCUVScaler.scale_x_ self
    = Some [B64.of_Z 1; B64.of_Z 1; B64.of_Z 2; B64.of_Z 1] /\
  (Z ← MCUVScaler.transform self X; MCUVScaler.inverse_transform self Z)
    = Ok X.
Proof. intros X self. repeat split; vm_compute; reflexivity. Qed.

(** X23. What [fit] stores and [transform] returns, in float64.  For
    every frame [X], [fit] stores for every column its computed mean
    as center (the float64 sum of the observed entries over their
    number) and as scale its computed sample standard deviation
    (ddof = 1), replaced by 1 where that computed value compares equal
    to 0; no stored scale compares equal to 0.  [transform] of a frame
    [M] with the columns of [X] returns a frame of the shape of [M]
    whose entry (i, j) is the float64 quotient of the float64
    difference M[i,j] - center[j] by scale[j]. *)
Theorem fit_stores_computed_statistics (self : MCUVScaler.t) (X : matrix) :
  exists c sc,
    MCUVScaler.fit np_sum self X = MCUVScaler.Scaler (Some c) (Some sc) /\
    length c = ncols X /\ length sc = ncols X /\
    (forall j, j < ncols X ->
       c !! j = Some (Frame.mean np_sum (Frame.col j X)) /\
       sc !! j =
         Some (if B64.eqb (Frame.std np_sum 1 (Frame.col j X)) B64.zero
               then B64.one
               else Frame.std np_sum 1 (Frame.col j X))) /\
    Forall (fun s => B64.eqb s B64.zero = false) sc /\
    forall M, Frame.wf M -> ncols M = ncols X ->
      exists Z,
        MCUVScaler.transform (MCUVScaler.fit np_sum self X) M = Ok Z /\
        Frame.nrows Z = Frame.nrows M /\ ncols Z = ncols M /\
        forall i j m, Frame.cell M i j = Some m ->
          exists cj sj,
            c !! j = Some cj /\ sc !! j = Some sj /\
            Frame.cell Z i j = Some (B64.div (B64.sub m cj) sj).
Proof.
  pose proof (b64_col_reduce_length (Frame.mean np_sum) X) as Hlc.
  assert (length (MCUVScaler.mask_zero
                    (Frame.col_reduce (Frame.std np_sum 1) X)) = ncols X)
    as Hls by (rewrite b64_mask_zero_length; apply b64_col_reduce_length).
  eexists _, _. split; [apply b64_fit_attrs|].
  split; [exact Hlc|]. split; [exact Hls|].
  split; [|split; [apply b64_mask_zero_nonzero|]].
  - intros j Hj. split; [apply b64_col_reduce_lookup, Hj|].
    unfold MCUVScaler.mask_zero.
    rewrite list_lookup_fmap, b64_col_reduce_lookup by exact Hj.
    reflexivity.
  - intros M HwfM Hcols.
    rewrite b64_fit_attrs, b64_transform_fitted.
    eexists. split; [reflexivity|].
    destruct (b64_two_ops B64.sub B64.div M
                (Frame.col_reduce (Frame.mean np_sum) X)
                (MCUVScaler.mask_zero
                   (Frame.col_reduce (Frame.std np_sum 1) X)))
      as (_ & Hn & Hr & Hcell); [exact HwfM | lia | lia |].
    split; [exact Hr|]. split; [exact Hn|]. exact Hcell.
Qed.

End ScalerValues.

(** ** The range of the statistics stored by fit *)

Module RangeFacts.

Import Ranges.
Open Scope R_scope.

Lemma sqr_range (x : float) : nonneg_or_special (F64.sqr x).
Proof.
  destruct x as [a| | |]; unfold nonneg_or_special; simpl; auto.
  right. right. exists (a * a). split; [reflexivity|].
  apply (Rle_0_sqr a).
Qed.

Lemma add_range (x y : float) :
  nonneg_or_special x -> nonneg_or_special y ->
  nonneg_or_special (F64.add x y).
Proof.
  unfold nonneg_or_special.
  intros [->|[->|(a & -> & Ha)]] [->|[->|(b & -> & Hb)]]; simpl; auto.
  right. right. exists (a + b). split; [reflexivity | lra].
Qed.

Lemma add_range_inf (x y : float) :
  nonneg_or_inf x -> nonneg_or_inf y -> nonneg_or_inf (F64.add x y).
Proof.
  unfold nonneg_or_inf.
  intros [->|(a & -> & Ha)] [->|(b & -> & Hb)]; simpl; auto.
  right. exists (a + b). split; [reflexivity | lra].
Qed.

Lemma sum_range (P : float -> Prop) (l : series) :
  P (Fin 0) ->
  (forall x y, P x -> P y -> P (F64.add x y)) ->
  Forall P l -> P (F64.sum l).
Proof.
  intros H0 Hadd. unfold F64.sum. generalize (Fin 0) H0.
  induction l as [|x l IH]; intros a Ha Hl; simpl; [exact Ha|].
  inversion Hl; subst. apply IH; auto.
Qed.

Lemma zero_nonneg_or_special : nonneg_or_special (Fin 0).
Proof. right. right. exists 0. split; [reflexivity | lra]. Qed.

Lemma zero_nonneg_or_inf : nonneg_or_inf (Fin 0).
Proof. right. exists 0. split; [reflexivity | lra]. Qed.

(** The squares that are left once the missing ones are dropped. *)
Lemma dropna_sqr_range (r : series) :
  Forall nonneg_or_inf (Frame.dropna (map F64.sqr r)).
Proof.
  induction r as [|x r IH]; simpl; [constructor|].
  destruct (sqr_range x) as [H|[H|(a & H & Ha)]]; rewrite H; simpl.
  - constructor; [left; reflexivity | exact IH].
  - exact IH.
  - constructor; [right; eauto | exact IH].
Qed.

(** A sum is finite only if every term is. *)
Lemma add_finite_inv (x y : float) :
  F64.is_finite (F64.add x y) = true ->
  F64.is_finite x = true /\ F64.is_finite y = true.
Proof. destruct x, y; simpl; auto. Qed.

Lemma foldl_add_finite_inv (l : series) (a : float) :
  F64.is_finite (foldl F64.add a l) = true ->
  F64.is_finite a = true /\ forallb F64.is_finite l = true.
Proof.
  revert a. induction l as [|x l IH]; intros a H; simpl in *; [auto|].
  apply IH in H as [Hax Hl]. apply add_finite_inv in Hax as [Ha Hx].
  rewrite Hx, Hl. auto.
Qed.

Lemma sum_finite_inv (l : series) :
  F64.is_finite (F64.sum l) = true -> forallb F64.is_finite l = true.
Proof. intros H. apply foldl_add_finite_inv in H as [_ H]. exact H. Qed.

(** Nothing divided by an exact zero is finite. *)
Lemma div_zero_not_finite (x : float) :
  F64.is_finite (F64.div x (Fin 0)) = false.
Proof.
  destruct x as [a| | |]; simpl; rewrite ?F64Facts.Reqb_true by reflexivity;
    try reflexivity.
  destruct (F64.Rsign a); reflexivity.
Qed.

Lemma sqr_not_finite (x : float) :
  F64.is_finite x = false -> F64.is_finite (F64.sqr x) = false.
Proof. destruct x; simpl; auto. Qed.

Lemma sqrt_zero : F64.sqrt (Fin 0) = Fin 0.
Proof.
  simpl. rewrite F64Facts.Rltb_false by lra. rewrite sqrt_0. reflexivity.
Qed.

End RangeFacts.

Section StatisticsRange.

Variable sk_params : Type.
Variable sk_decompose :
  option Z -> sk_params -> matrix -> result (sk_fitted * matrix).

Local Abbreviation pca_fit := (fit sk_params sk_decompose).

Import Ranges RangeFacts.

(** X14. After any successful [fit], every stored SPE value is a
    non-negative number or +inf: never negative and, because the row
    sums of a DataFrame skip missing entries, never NaN.  Every stored
    T2 value is a non-negative number, +inf or NaN: never negative. *)
Theorem fit_statistics_nonnegative (self self' : PCA sk_params) (X : matrix) :
  pca_fit self X = Ok self' ->
  exists t2 spe,
    hotellings_T2 _ self' = Some t2 /\
    squared_prediction_error _ self' = Some spe /\
    Forall nonneg_or_special t2 /\
    Forall nonneg_or_inf spe.
Proof.
  intros Hfit.
  apply fit_inv in Hfit as (fitted & T & scaled & TC & E & _ & _ & _ & _ & ->).
  eexists _, _. split; [reflexivity|]. split; [reflexivity|].
  unfold Frame.np_row_sums, Frame.row_sums, Frame.map_cells. simpl. split.
  - rewrite map_map. apply Forall_fmap, Forall_forall. intros r _. simpl.
    apply sum_range;
      [apply zero_nonneg_or_special | apply add_range |].
    apply Forall_fmap, Forall_forall. intros x _. apply sqr_range.
  - rewrite map_map. apply Forall_fmap, Forall_forall. intros r _. simpl.
    apply sum_range; [apply zero_nonneg_or_inf | apply add_range_inf |].
    apply dropna_sqr_range.
Qed.

(** X15. The division by the square root of the explained variance is
    not guarded: when scikit-learn reports an explained variance of
    exactly 0 for some component (data without variance along it), no
    stored T2 value is a finite number. *)
Theorem zero_variance_component_T2 (self self' : PCA sk_params)
    (X T : matrix) (ev : series) (a : nat) :
  pca_fit self X = Ok self' ->
  t_scores _ self' = Some T ->
  explained_variance_ _ self' = Some ev ->
  Frame.wf T -> length ev = ncols T ->
  ev !! a = Some (Fin 0) ->
  exists t2,
    hotellings_T2 _ self' = Some t2 /\
    length t2 = Frame.nrows T /\
    Forall (fun v => F64.is_finite v = false) t2.
Proof.
  intros Hfit HT Hev HwfT Hlen Ha.
  apply fit_inv in Hfit
    as (fitted & T0 & scaled & TC & E & _ & Hop & _ & _ & ->).
  simpl in HT, Hev. injection HT as ->. injection Hev as <-.
  rewrite FrameFacts.np_op_1d_rows in Hop
    by (try assumption; rewrite length_map; exact Hlen).
  injection Hop as <-.
  eexists. split; [reflexivity|].
  unfold Frame.np_row_sums, Frame.map_cells, Frame.nrows. simpl.
  rewrite !length_map. split; [reflexivity|].
  rewrite !map_map. apply Forall_fmap, Forall_lookup. intros i t Ht. simpl.
  destruct (F64.is_finite (F64.sum (map F64.sqr
              (zip_with F64.div t (map F64.sqrt (sk_explained_variance_ fitted))))))
    eqn:Hfin; [|reflexivity].
  exfalso. apply sum_finite_inv in Hfin.
  unfold Frame.wf in HwfT. rewrite Forall_lookup in HwfT.
  pose proof (HwfT _ _ Ht) as Htlen. simpl in Htlen.
  assert (a < length t)%nat as Hat
    by (apply lookup_lt_Some in Ha; lia).
  destruct (lookup_lt_is_Some_2 t a Hat) as [x Hx].
  assert (map F64.sqr
            (zip_with F64.div t (map F64.sqrt (sk_explained_variance_ fitted)))
          !! a = Some (F64.sqr (F64.div x (Fin 0)))) as Hcell.
  { rewrite list_lookup_fmap, lookup_zip_with, Hx, list_lookup_fmap, Ha.
    simpl. rewrite F64Facts.Rltb_false by (apply Rle_refl).
    rewrite sqrt_0. reflexivity. }
  pose proof (FrameFacts.forallb_lookup _ _ _ _ Hfin Hcell) as Hbad.
  rewrite sqr_not_finite in Hbad by apply div_zero_not_finite.
  discriminate.
Qed.

End StatisticsRange.

(** ** fit on the heap *)

Module RefFit.

Import Ref RefFacts.

(** [fit] on the heap, step by step: the addresses it allocates, the
    heap it leaves and what the instance then refers to. *)
Lemma fit_heap (h : heap) (self x : loc) (c_old s_old : option loc)
    (X : matrix) :
  h !! self = Some (OScaler c_old s_old) ->
  h !! x = Some (OFrame X) ->
  exists h' cl sl,
    fit self x h = (Ok self, h') /\
    h' !! self = Some (OScaler (Some cl) (Some sl)) /\
    h' !! cl = Some (OSeries (Frame.col_reduce Frame.mean X)) /\
    h' !! sl = Some (OSeries (MCUVScaler.mask_zero
                                (Frame.col_reduce (Frame.std 1) X))) /\
    h !! cl = None /\ h !! sl = None /\
    forall l o, l <> self -> h !! l = Some o -> h' !! l = Some o.
Proof.
  intros Hself Hx. unfold fit.
  set (means := Frame.col_reduce Frame.mean X).
  set (stds := Frame.col_reduce (Frame.std 1) X).
  eval_call frame_at_eval.
  set (f1 := fresh (dom h)).
  set (h1 := <[f1 := OSeries means]> h).
  assert (h !! f1 = None) as Hf1 by apply (new_fresh (OSeries means)).
  assert (f1 <> self) as Hf1self by (intros E; rewrite E, Hself in Hf1; discriminate).
  assert (h1 !! self = Some (OScaler c_old s_old)) as Hself1
    by (unfold h1; rewrite lookup_insert_ne by exact Hf1self; exact Hself).
  erewrite (bind_eval (new (OSeries means)) _ h h1 f1) by reflexivity.
  eval_call scale_of_eval.
  set (h2 := <[self := OScaler (Some f1) s_old]> h1).
  erewrite (bind_eval (store self _) _ h1 h2 tt) by reflexivity.
  set (f2 := fresh (dom h2)).
  set (h3 := <[f2 := OSeries stds]> h2).
  assert (h2 !! f2 = None) as Hf2 by apply (new_fresh (OSeries stds)).
  assert (h2 !! self = Some (OScaler (Some f1) s_old)) as Hself2
    by apply lookup_insert_eq.
  assert (f2 <> self) as Hf2self
    by (intros E; rewrite E, Hself2 in Hf2; discriminate).
  assert (h2 !! f1 = Some (OSeries means)) as Hf1h2.
  { unfold h2, h1. rewrite lookup_insert_ne by congruence.
    apply lookup_insert_eq. }
  assert (f2 <> f1) as Hf2f1
    by (intros E; rewrite E, Hf1h2 in Hf2; discriminate).
  assert (h3 !! self = Some (OScaler (Some f1) s_old)) as Hself3
    by (unfold h3; rewrite lookup_insert_ne by exact Hf2self; exact Hself2).
  erewrite (bind_eval (new (OSeries stds)) _ h2 h3 f2) by reflexivity.
  eval_call center_of_eval.
  set (h4 := <[self := OScaler (Some f1) (Some f2)]> h3).
  erewrite (bind_eval (store self _) _ h3 h4 tt) by reflexivity.
  assert (h4 !! self = Some (OScaler (Some f1) (Some f2))) as Hself4
    by apply lookup_insert_eq.
  assert (h4 !! f2 = Some (OSeries stds)) as Hf2h4.
  { unfold h4, h3. rewrite lookup_insert_ne by congruence.
    apply lookup_insert_eq. }
  eval_call scale_of_eval.
  erewrite (bind_eval (lift (getattr "scale_x_" (Some f2))) _ h4 h4 f2)
    by reflexivity.
  eval_call series_at_eval.
  set (h5 := <[f2 := OSeries (MCUVScaler.mask_zero stds)]> h4).
  erewrite (bind_eval (store f2 _) _ h4 h5 tt) by reflexivity.
  exists h5, f1, f2. split; [reflexivity|].
  split.
  { unfold h5. rewrite lookup_insert_ne by exact Hf2self. exact Hself4. }
  split.
  { unfold h5, h4, h3. rewrite !lookup_insert_ne by congruence. exact Hf1h2. }
  split; [apply lookup_insert_eq|].
  split; [exact Hf1|].
  split.
  { destruct (h !! f2) as [o|] eqn:Hold; [|reflexivity].
    assert (h2 !! f2 = Some o) as Hbad
      by (unfold h2, h1; rewrite !lookup_insert_ne by congruence; exact Hold).
    rewrite Hbad in Hf2. discriminate. }
  intros l o Hl Hlo.
  assert (l <> f1) by (intros ->; rewrite Hf1 in Hlo; discriminate).
  assert (l <> f2).
  { intros ->.
    assert (h2 !! f2 = Some o) as Hbad
      by (unfold h2, h1; rewrite !lookup_insert_ne by congruence; exact Hlo).
    rewrite Hbad in Hf2. discriminate. }
  unfold h5, h4, h3, h2, h1. rewrite !lookup_insert_ne by congruence.
  exact Hlo.
Qed.

End RefFit.

Section HeapFit.

Import Ref.

(** X16. [fit] on the heap, with its in-place masking of the zero
    scales, changes nothing but the instance: the input frame and every
    other object keep their contents, the center and scale series are
    new objects, and they hold what [fit] on values computes. *)
Theorem fit_leaves_input (h : heap) (self x : loc) (c_old s_old : option loc)
    (X : matrix) :
  h !! self = Some (OScaler c_old s_old) ->
  h !! x = Some (OFrame X) ->
  exists h' cl sl c sc,
    fit self x h = (Ok self, h') /\
    MCUVScaler.fit MCUVScaler.init X = MCUVScaler.Scaler (Some c) (Some sc) /\
    h' !! self = Some (OScaler (Some cl) (Some sl)) /\
    h' !! cl = Some (OSeries c) /\
    h' !! sl = Some (OSeries sc) /\
    h !! cl = None /\ h !! sl = None /\
    h' !! x = Some (OFrame X) /\
    forall l o, l <> self -> h !! l = Some o -> h' !! l = Some o.
Proof.
  intros Hself Hx.
  destruct (RefFit.fit_heap h self x c_old s_old X Hself Hx)
    as (h' & cl & sl & Hfit & Hs & Hc & Hsc & Hfc & Hfs & Hframe).
  exists h', cl, sl. eexists _, _.
  split; [exact Hfit|]. split; [apply ScalerFacts.fit_attrs|].
  split; [exact Hs|]. split; [exact Hc|]. split; [exact Hsc|].
  split; [exact Hfc|]. split; [exact Hfs|]. split; [|exact Hframe].
  apply Hframe; [|exact Hx].
  intros ->. rewrite Hself in Hx. discriminate.
Qed.

(** X17. [fit] followed by [transform] of a frame [M] on the heap (the
    fitted frame itself or another one, on a fresh or an already fitted
    instance) succeeds and returns a new frame holding what
    [transform] by the scaler fitted on [X] computes on values; [M] and
    [X] are left as they were. *)
Theorem fit_then_transform (h : heap) (self x m : loc)
    (c_old s_old : option loc) (X M : matrix) :
  h !! self = Some (OScaler c_old s_old) ->
  h !! x = Some (OFrame X) ->
  h !! m = Some (OFrame M) ->
  exists h1 h2 l Z,
    fit self x h = (Ok self, h1) /\
    transform self m h1 = (Ok l, h2) /\
    MCUVScaler.transform (MCUVScaler.fit MCUVScaler.init X) M = Ok Z /\
    h2 !! l = Some (OFrame Z) /\
    h !! l = None /\
    h2 !! x = Some (OFrame X) /\
    h2 !! m = Some (OFrame M).
Proof.
  intros Hself Hx Hm.
  destruct (RefFit.fit_heap h self x c_old s_old X Hself Hx)
    as (h1 & cl & sl & Hfit & Hs & Hc & Hsc & Hfc & Hfs & Hframe).
  assert (x <> self) as Hxs by (intros ->; rewrite Hself in Hx; discriminate).
  assert (m <> self) as Hms by (intros ->; rewrite Hself in Hm; discriminate).
  pose proof (Hframe _ _ Hxs Hx) as Hx1.
  pose proof (Hframe _ _ Hms Hm) as Hm1.
  destruct (RefFacts.transform_refines h1 self m cl sl _ _ M Hs Hc Hsc Hm1)
    as (l & h2 & Z & Htr & HZ & Hl).
  exists h1, h2, l, Z.
  split; [exact Hfit|]. split; [exact Htr|].
  split; [rewrite ScalerFacts.fit_attrs; exact HZ|].
  split; [exact Hl|].
  destruct (RefFacts.allocating_transform self m h1) as [Hsub Hnew].
  rewrite Htr in Hsub, Hnew. simpl in Hsub, Hnew.
  destruct (Hnew l eq_refl) as [Hfresh _].
  split.
  { destruct (h !! l) as [o|] eqn:Hold; [|reflexivity].
    destruct (decide (l = self)) as [->|Hne].
    - rewrite Hs in Hfresh. discriminate.
    - rewrite (Hframe _ _ Hne Hold) in Hfresh. discriminate. }
  split; eapply lookup_weaken; eassumption.
Qed.

End HeapFit.

(** ** The scaler fitted on fewer than two rows *)

Section TooFewRows.

Open Scope R_scope.

Lemma std_short (v : series) : (length v <= 1)%nat -> Frame.std 1 v = NaN.
Proof.
  intros H. unfold Frame.std, Frame.var.
  destruct (Nat.leb_spec (length (Frame.dropna v)) 1) as [_|Hgt];
    [reflexivity|].
  exfalso. unfold Frame.dropna in Hgt.
  pose proof (List.filter_length_le (fun x => negb (F64.is_nan x)) v). lia.
Qed.

(** X18. A scaler fitted on a frame with fewer than two rows has NaN as
    the scale of every column (the standard deviation with ddof = 1 is
    undefined and NaN is not replaced by 1), and [transform] then turns
    every entry of every frame with these columns into NaN. *)
Theorem fit_too_few_rows (X : matrix) :
  (Frame.nrows X <= 1)%nat ->
  exists c sc,
    MCUVScaler.fit MCUVScaler.init X = MCUVScaler.Scaler (Some c) (Some sc) /\
    length sc = ncols X /\
    Forall (fun s => s = NaN) sc /\
    forall M, Frame.wf M -> ncols M = ncols X ->
      exists Z,
        MCUVScaler.transform (MCUVScaler.fit MCUVScaler.init X) M = Ok Z /\
        forall i j m, Frame.cell M i j = Some m ->
          Frame.cell Z i j = Some NaN.
Proof.
  intros Hrows.
  assert (length (Frame.col_reduce Frame.mean X) = ncols X) as Hlc
    by apply FrameFacts.col_reduce_length.
  assert (length (MCUVScaler.mask_zero (Frame.col_reduce (Frame.std 1) X))
          = ncols X) as Hls.
  { unfold MCUVScaler.mask_zero. rewrite length_map.
    apply FrameFacts.col_reduce_length. }
  assert (Forall (fun s => s = NaN)
            (MCUVScaler.mask_zero (Frame.col_reduce (Frame.std 1) X))) as Hnan.
  { unfold MCUVScaler.mask_zero, Frame.col_reduce. rewrite map_map.
    apply Forall_fmap, Forall_forall. intros j _. simpl.
    rewrite std_short by (rewrite FrameFacts.col_length; exact Hrows).
    reflexivity. }
  eexists _, _. split; [apply ScalerFacts.fit_attrs|].
  split; [exact Hls|]. split; [exact Hnan|].
  intros M HwfM Hcols.
  rewrite ScalerFacts.fit_attrs, ScalerFacts.transform_fitted.
  eexists. split; [reflexivity|].
  intros i j m Hm.
  destruct (ScalerFacts.frame_op_cell F64.sub M
              (Frame.col_reduce Frame.mean X) i j m HwfM)
    as (cj & _ & H1); [congruence | exact Hm |].
  destruct (ScalerFacts.frame_op_wf F64.sub M
              (Frame.col_reduce Frame.mean X) HwfM) as (Hwf1 & Hn1 & _);
    [congruence|].
  destruct (ScalerFacts.frame_op_cell F64.div _
              (MCUVScaler.mask_zero (Frame.col_reduce (Frame.std 1) X))
              i j (F64.sub m cj) Hwf1) as (sj & Hsj & H2);
    [congruence | exact H1 |].
  rewrite Forall_lookup in Hnan. rewrite (Hnan _ _ Hsj) in H2.
  rewrite F64Facts.div_nan_r in H2. exact H2.
Qed.

End TooFewRows.

(** ** The further properties at concrete inputs *)

Section MoreInstances.

Open Scope R_scope.

(** Evaluate [fit] with the fixture decomposition on concrete data. *)
Ltac fit_fixture n X H :=
  eassert (fit unit Fixture.decompose (PCA_init unit n tt) X = Ok _) as H
    by (vm_compute; reflexivity).

Lemma T2_limit_level_asserted_witness :
  T2_limit unit Fixture.isf (Fixture.model 2 50 []) NaN = Err AssertionError.
Proof. apply T2_limit_level_asserted. reflexivity. Defined.

Lemma SPE_limit_level_asserted_witness :
  SPE_limit unit Fixture.ppf (Fixture.model 1 3 [Fin 1; Fin 2; Fin 4]) PInf
    = Err AssertionError.
Proof.
  apply (SPE_limit_level_asserted unit Fixture.ppf _ [Fin 1; Fin 2; Fin 4]);
    reflexivity.
Defined.

Lemma T2_limit_unfitted_attribute_error_witness :
  T2_limit unit Fixture.isf (PCA_init unit (Some 2%Z) tt) (Fin (95 / 100))
    = Err (AttributeError "N").
Proof. apply T2_limit_unfitted_attribute_error. lra. Defined.

Lemma T2_limit_default_components_witness :
  exists self',
    fit unit Fixture.decompose (PCA_init unit None tt) Fixture.X22 = Ok self' /\
    T2_limit unit Fixture.isf self' (Fin (95 / 100)) = Err TypeError.
Proof.
  fit_fixture (@None Z) Fixture.X22 Hfit.
  eexists. split; [exact Hfit|].
  apply (T2_limit_default_components unit Fixture.decompose Fixture.isf
           tt Fixture.X22 _ (95 / 100) Hfit). lra.
Defined.

Lemma SPE_limit_after_fit_witness :
  exists self' v,
    fit unit Fixture.decompose (PCA_init unit (Some 1%Z) tt) Fixture.X22
      = Ok self' /\
    SPE_limit unit Fixture.ppf self' (Fin (95 / 100)) = Ok v.
Proof.
  fit_fixture (Some 1%Z) Fixture.X22 Hfit.
  destruct (SPE_limit_after_fit unit Fixture.decompose Fixture.ppf
              _ _ Fixture.X22 (95 / 100) Hfit) as [v Hv]; [lra|].
  eexists _, v. split; [exact Hfit | exact Hv].
Defined.

Lemma T2_limit_after_fit_witness :
  exists self' v,
    fit unit Fixture.decompose (PCA_init unit (Some 1%Z) tt) Fixture.X22
      = Ok self' /\
    T2_limit unit Fixture.isf self' (Fin (95 / 100)) = Ok v.
Proof.
  fit_fixture (Some 1%Z) Fixture.X22 Hfit.
  destruct (T2_limit_after_fit unit Fixture.decompose Fixture.isf
              _ _ Fixture.X22 1 (95 / 100) Hfit) as [Hv _];
    [reflexivity | lra |].
  eexists _, _. split; [exact Hfit|]. apply Hv.
  unfold Frame.nrows, Fixture.X22. simpl. lia.
Defined.

Lemma SPE_limit_single_row_witness :
  exists self',
    fit unit Fixture.decompose (PCA_init unit (Some 1%Z) tt)
      (Mat 2 [[Fin 1; Fin 2]]) = Ok self' /\
    SPE_limit unit Fixture.ppf self' (Fin (95 / 100)) = Ok NaN.
Proof.
  fit_fixture (Some 1%Z) (Mat 2 [[Fin 1; Fin 2]]) Hfit.
  eexists. split; [exact Hfit|].
  apply (SPE_limit_single_row unit Fixture.decompose Fixture.ppf
           _ _ (Mat 2 [[Fin 1; Fin 2]]) (95 / 100) Hfit);
    [reflexivity | lra].
Defined.

Lemma SPE_limit_zero_residuals_witness :
  SPE_limit unit Fixture.ppf (Fixture.model 2 2 [Fin 0; Fin 0])
    (Fin (95 / 100)) = Ok NaN.
Proof.
  apply (SPE_limit_zero_residuals unit Fixture.ppf _ 2 [Fin 0; Fin 0]).
  - reflexivity.
  - reflexivity.
  - repeat constructor.
  - simpl. lia.
  - lra.
Defined.

Lemma missing_entries_stay_missing_witness :
  exists Z W,
    IEEE.MCUVScaler.transform
      (IEEE.MCUVScaler.Scaler (Some [IEEE.B64.of_Z 2; IEEE.B64.of_Z 5])
                              (Some [IEEE.B64.of_Z 1; IEEE.B64.of_Z 1]))
      IEEE.Fixture.X22_missing = Ok Z /\
    IEEE.MCUVScaler.inverse_transform
      (IEEE.MCUVScaler.Scaler (Some [IEEE.B64.of_Z 2; IEEE.B64.of_Z 5])
                              (Some [IEEE.B64.of_Z 1; IEEE.B64.of_Z 1]))
      IEEE.Fixture.X22_missing = Ok W /\
    IEEE.Frame.cell Z 0 1 = Some IEEE.B64.nan /\
    IEEE.Frame.cell W 0 1 = Some IEEE.B64.nan.
Proof.
  destruct (missing_entries_stay_missing
              [IEEE.B64.of_Z 2; IEEE.B64.of_Z 5]
              [IEEE.B64.of_Z 1; IEEE.B64.of_Z 1] IEEE.Fixture.X22_missing)
    as (Z & W & HZ & HW & Hnan).
  - repeat constructor.
  - reflexivity.
  - reflexivity.
  - exists Z, W. split; [exact HZ|]. split; [exact HW|].
    apply (Hnan 0%nat 1%nat). reflexivity.
Defined.

Lemma fit_stores_computed_statistics_witness :
  exists c sc Z,
    IEEE.MCUVScaler.fit IEEE.Fixture.sum_seq IEEE.MCUVScaler.init
      IEEE.Fixture.X22 = IEEE.MCUVScaler.Scaler (Some c) (Some sc) /\
    IEEE.MCUVScaler.transform
      (IEEE.MCUVScaler.fit IEEE.Fixture.sum_seq IEEE.MCUVScaler.init
         IEEE.Fixture.X22) IEEE.Fixture.X22 = Ok Z /\
    IEEE.ncols Z = 2%nat.
Proof.
  destruct (fit_stores_computed_statistics IEEE.Fixture.sum_seq
              IEEE.MCUVScaler.init IEEE.Fixture.X22)
    as (c & sc & Hfit & _ & _ & _ & _ & Ht).
  destruct (Ht IEEE.Fixture.X22) as (Z & HZ & _ & Hn & _).
  - repeat constructor.
  - reflexivity.
  - exists c, sc, Z. split; [exact Hfit|]. split; [exact HZ | exact Hn].
Defined.

Lemma fit_statistics_nonnegative_witness :
  exists self' t2 spe,
    fit unit Fixture.decompose (PCA_init unit (Some 1%Z) tt) Fixture.X22
      = Ok self' /\
    hotellings_T2 unit self' = Some t2 /\
    squared_prediction_error unit self' = Some spe /\
    Forall Ranges.nonneg_or_inf spe.
Proof.
  fit_fixture (Some 1%Z) Fixture.X22 Hfit.
  destruct (fit_statistics_nonnegative unit Fixture.decompose _ _
              Fixture.X22 Hfit) as (t2 & spe & Ht2 & Hspe & _ & Hrange).
  eexists _, t2, spe. auto.
Defined.

Lemma zero_variance_component_T2_witness :
  exists self' t2,
    fit unit
      (fun _ _ _ =>
         Ok (SkFitted (Mat 2 [[Fin 1; Fin 0]]) [Fin 0],
             Mat 1 [[Fin 0]; [Fin 0]]))
      (PCA_init unit (Some 1%Z) tt) (Mat 2 [[Fin 5; Fin 5]; [Fin 5; Fin 5]])
    = Ok self' /\
    hotellings_T2 unit self' = Some t2 /\
    Forall (fun v => F64.is_finite v = false) t2.
Proof.
  eassert (fit unit
             (fun _ _ _ =>
                Ok (SkFitted (Mat 2 [[Fin 1; Fin 0]]) [Fin 0],
                    Mat 1 [[Fin 0]; [Fin 0]]))
             (PCA_init unit (Some 1%Z) tt)
             (Mat 2 [[Fin 5; Fin 5]; [Fin 5; Fin 5]]) = Ok _) as Hfit
    by (vm_compute; reflexivity).
  destruct (zero_variance_component_T2 unit _ _ _ _
              (Mat 1 [[Fin 0]; [Fin 0]]) [Fin 0] 0%nat Hfit)
    as (t2 & Ht2 & _ & Hbad).
  - reflexivity.
  - reflexivity.
  - repeat constructor.
  - reflexivity.
  - reflexivity.
  - eexists _, t2. split; [exact Hfit|]. split; [exact Ht2 | exact Hbad].
Defined.

Lemma fit_leaves_input_witness :
  let h : Ref.heap :=
    {[ 1%positive := Ref.OScaler None None;
       2%positive := Ref.OFrame Fixture.X22 ]} in
  exists h',
    Ref.fit 1%positive 2%positive h = (Ok 1%positive, h') /\
    h' !! 2%positive = Some (Ref.OFrame Fixture.X22).
Proof.
  intros h.
  destruct (fit_leaves_input h 1%positive 2%positive None None Fixture.X22)
    as (h' & cl & sl & c & sc & Hfit & _ & _ & _ & _ & _ & _ & Hx & _).
  - reflexivity.
  - reflexivity.
  - exists h'. split; [exact Hfit | exact Hx].
Defined.

Lemma fit_then_transform_witness :
  let h : Ref.heap :=
    {[ 1%positive := Ref.OScaler None None;
       2%positive := Ref.OFrame Fixture.X22 ]} in
  exists h1 h2 l Z,
    Ref.fit 1%positive 2%positive h = (Ok 1%positive, h1) /\
    Ref.transform 1%positive 2%positive h1 = (Ok l, h2) /\
    h2 !! l = Some (Ref.OFrame Z).
Proof.
  intros h.
  destruct (fit_then_transform h 1%positive 2%positive 2%positive
              None None Fixture.X22 Fixture.X22)
    as (h1 & h2 & l & Z & Hfit & Htr & _ & Hl & _).
  - reflexivity.
  - reflexivity.
  - reflexivity.
  - exists h1, h2, l, Z. auto.
Defined.

Lemma fit_too_few_rows_witness :
  exists c sc,
    MCUVScaler.fit MCUVScaler.init (Mat 2 [[Fin 1; Fin 2]])
      = MCUVScaler.Scaler (Some c) (Some sc) /\
    Forall (fun s => s = NaN) sc.
Proof.
  destruct (fit_too_few_rows (Mat 2 [[Fin 1; Fin 2]]))
    as (c & sc & Hfit & _ & Hnan & _).
  - unfold Frame.nrows. simpl. lia.
  - exists c, sc. split; [exact Hfit | exact Hnan].
Defined.

End MoreInstances.
